(** * packagedcode/phpcomposer.py: a shallow embedding and its properties

    The module reads a PHP composer manifest ([composer.json]) and maps it
    onto a [Package] record.  Every function of the module is translated
    below, in the order of the source.  Python values decoded from JSON are
    the inductive type [json]; a Python exception is the [Raise] branch of
    [pyres]; the mappers, which mutate the package they are given, are
    computations of a small state-and-exception monad over [Package]. *)

From Stdlib Require Import ZArith Ascii String List Floats.SpecFloat.
From stdpp Require Import base option strings gmap list.

Local Open Scope string_scope.

(** ** Python strings

    A [string] holds the characters of a Python text one per [ascii], that is
    the code points below 256. *)

Module Str.

(** [s.startswith(p)] *)
Fixpoint startswith (s p : string) {struct p} : bool :=
  match p, s with
  | EmptyString, _ => true
  | String _ _, EmptyString => false
  | String a p', String b s' => if Ascii.eqb a b then startswith s' p' else false
  end.

(** [s.startswith((p1, p2, ...))]: a tuple of prefixes. *)
Definition startswith_any (s : string) (ps : list string) : bool :=
  existsb (startswith s) ps.

(** [sub in s] *)
Fixpoint contains (sub s : string) : bool :=
  startswith s sub ||
  match s with
  | EmptyString => false
  | String _ s' => contains sub s'
  end.

(** The two halves of [s] around the first occurrence of [c], if any. *)
Fixpoint cut (c : ascii) (s : string) : option (string * string) :=
  match s with
  | EmptyString => None
  | String a s' =>
      if Ascii.eqb a c then Some (EmptyString, s')
      else match cut c s' with
           | Some (l, r) => Some (String a l, r)
           | None => None
           end
  end.

(** [s.split(c, 1)]: one or two pieces. *)
Definition split1 (c : ascii) (s : string) : list string :=
  match cut c s with
  | Some (l, r) => [l; r]
  | None => [s]
  end.

(** [s.split(c)]: all the pieces, empty ones included. *)
Fixpoint split (c : ascii) (s : string) : list string :=
  match s with
  | EmptyString => [EmptyString]
  | String a s' =>
      if Ascii.eqb a c then EmptyString :: split c s'
      else match split c s' with
           | h :: t => String a h :: t
           | [] => [String a EmptyString]
           end
  end.

Fixpoint lstrip (drop : ascii -> bool) (s : string) : string :=
  match s with
  | EmptyString => EmptyString
  | String a s' => if drop a then lstrip drop s' else s
  end.

Fixpoint rstrip (drop : ascii -> bool) (s : string) : string :=
  match s with
  | EmptyString => EmptyString
  | String a s' =>
      match rstrip drop s' with
      | EmptyString => if drop a then EmptyString else String a EmptyString
      | r => String a r
      end
  end.

(** [s.strip(chars)], the characters to drop given as a predicate. *)
Definition strip_by (drop : ascii -> bool) (s : string) : string :=
  rstrip drop (lstrip drop s).

Definition in_chars (chars : string) (a : ascii) : bool :=
  existsb (Ascii.eqb a) (list_ascii_of_string chars).

(** White space of a Python 2 [unicode] text, on code points below 256:
    TAB..CR, FS..US, space, NEL and the no-break space. *)
Definition isspace (a : ascii) : bool :=
  let n := nat_of_ascii a in
  ((9 <=? n)%nat && (n <=? 13)%nat) || ((28 <=? n)%nat && (n <=? 32)%nat)
  || (n =? 133)%nat || (n =? 160)%nat.

(** [s.strip()] *)
Definition strip (s : string) : string := strip_by isspace s.

(** [s.lower()] on a byte string in the C locale: A..Z only. *)
Definition lower_char (a : ascii) : ascii :=
  let n := nat_of_ascii a in
  if ((65 <=? n)%nat && (n <=? 90)%nat) then ascii_of_nat (n + 32) else a.

Fixpoint lower (s : string) : string :=
  match s with
  | EmptyString => EmptyString
  | String a s' => String (lower_char a) (lower s')
  end.

End Str.

(** ** Python values and exceptions *)

(** What [json.load] builds.  [JNull] is Python's [None]; [JObj] carries the
    items of the [OrderedDict] built by [object_pairs_hook], in order, its
    keys distinct. *)
#[warnings="-register-all"]
Inductive json : Type :=
| JNull
| JBool (b : bool)
| JInt (z : Z)
| JFloat (f : spec_float)
| JStr (s : string)
| JList (l : list json)
| JObj (o : list (string * json)).

Inductive exn : Type :=
| AttributeError
| ValueError
| KeyError (key : string)
| UnicodeDecodeError
| PyException (msg : string).

Inductive pyres (A : Type) : Type :=
| Ok (a : A)
| Raise (e : exn).
Arguments Ok {A} a.
Arguments Raise {A} e.

Definition pybind {A B : Type} (r : pyres A) (k : A -> pyres B) : pyres B :=
  match r with
  | Ok a => k a
  | Raise e => Raise e
  end.

#[global] Instance pyres_ret : MRet pyres := fun A a => Ok a.
#[global] Instance pyres_bind : MBind pyres := fun A B k r => pybind r k.

(** Truth value of a Python object, as tested by [if value:] and [not]. *)
Definition truthy (v : json) : bool :=
  match v with
  | JNull => false
  | JBool b => b
  | JInt z => negb (z =? 0)%Z
  | JFloat (S754_zero _) => false
  | JFloat _ => true
  | JStr s => negb (String.eqb s "")
  | JList l => match l with [] => false | _ => true end
  | JObj o => match o with [] => false | _ => true end
  end.

(** [isinstance(v, list)] *)
Definition is_list (v : json) : bool :=
  match v with JList _ => true | _ => false end.

(** [d.get(k)] on a dict: [None] when the key is absent. *)
Fixpoint dict_get (o : list (string * json)) (k : string) : json :=
  match o with
  | [] => JNull
  | (k', v) :: o' => if String.eqb k' k then v else dict_get o' k
  end.

(** [v.get(k)] on any object: only a dict has the method. *)
Definition get (v : json) (k : string) : pyres json :=
  match v with
  | JObj o => Ok (dict_get o k)
  | _ => Raise AttributeError
  end.

(** [a, b = pieces]: unpacking into two names. *)
Definition unpack2 (pieces : list string) : pyres (string * string) :=
  match pieces with
  | [a; b] => Ok (a, b)
  | _ => Raise ValueError
  end.

(** ** Repository URLs *)

Definition VCS_URLS : list string :=
  [ "https://"; "http://"; "git://"; "git+git://"; "hg+https://"; "hg+http://";
    "git+https://"; "git+http://"; "svn+https://"; "svn+http://"; "svn://" ].

(** The table local to [parse_repo_url]; its values are the text before the
    [%(repo)s] placeholder. *)
Definition hoster_urls : list (string * string) :=
  [ ("bitbucket:", "https://bitbucket.org/");
    ("github:", "https://github.com/");
    ("gitlab:", "https://gitlab.com/") ].

(** [table[key]] on a dict with string keys. *)
Fixpoint subscript (table : list (string * string)) (key : string) : pyres string :=
  match table with
  | [] => Raise (KeyError key)
  | (k, v) :: table' => if String.eqb k key then Ok v else subscript table' key
  end.

Definition parse_repo_url (repo_url : string) : pyres string :=
  if Str.startswith_any repo_url VCS_URLS then Ok repo_url
  else if Str.startswith repo_url "git@" then
    '(left_, right_) ← unpack2 (Str.split1 "@" repo_url);
    '(host, repo) ← unpack2 (Str.split1 ":" right_);
    if existsb (fun h => Str.contains h host) ["github"; "bitbucket"; "gitlab"]
    then Ok ("https://" ++ host ++ "/" ++ repo)
    else Ok repo_url
  else if Str.startswith repo_url "gist:" then Ok repo_url
  else if Str.startswith_any repo_url ["bitbucket:"; "gitlab:"; "github:"] then
    '(hoster, repo) ← unpack2 (Str.split1 ":" repo_url);
    template ← subscript hoster_urls hoster;
    Ok (template ++ repo)
  else if (length (Str.split "/" repo_url) =? 2)%nat then
    Ok ("https://github.com/" ++ repo_url)
  else Ok repo_url.

(** ** The package model

    [models.Package] and its companions are outside this module; only the
    attributes the module assigns are kept. *)

Record Party : Type := mkParty
  { party_type : string; party_name : json; email : json; url : json }.

Record AssertedLicense : Type := mkAssertedLicense { license : string }.

Record Dependency : Type := mkDependency
  { dep_name : string; version_constraint : json }.

Record Package : Type := mkPackage
  { type : string;
    primary_language : string;
    location : option string;
    metafile_locations : list string;
    name : json;
    summary : json;
    keywords : json;
    version : json;
    homepage_url : json;
    authors : list Party;
    asserted_licenses : list AssertedLicense;
    dependencies : gmap string (list Dependency);
    vcs_tool : option string;
    vcs_repository : option string;
    support_contacts : list json;
    bug_tracking_url : json;
    code_view_url : json }.

(** Modelled from the spec: the constants of [models] naming the kind of a
    party and the two kinds of dependency. *)
Definition party_person : string := "person".
Definition dep_runtime : string := "runtime".
Definition dep_dev : string := "dev".

(** Modelled from the spec: [PHPComposerPackage()], a record created fresh,
    its sequences and its mapping empty and its scalars absent; [type] and
    [primary_language] take the defaults the class declares. *)
Definition PHPComposerPackage : Package :=
  {| type := "phpcomposer"; primary_language := "PHP"; location := None;
     metafile_locations := []; name := JNull; summary := JNull;
     keywords := JNull; version := JNull; homepage_url := JNull;
     authors := []; asserted_licenses := []; dependencies := ∅;
     vcs_tool := None; vcs_repository := None; support_contacts := [];
     bug_tracking_url := JNull; code_view_url := JNull |}.

(** Attribute assignment, [package.f = v], one function per attribute. *)
Definition set_location (v : option string) (p : Package) : Package :=
  {| type := type p; primary_language := primary_language p; location := v;
     metafile_locations := metafile_locations p; name := name p; summary :=
     summary p; keywords := keywords p; version := version p; homepage_url
     := homepage_url p; authors := authors p; asserted_licenses :=
     asserted_licenses p; dependencies := dependencies p; vcs_tool :=
     vcs_tool p; vcs_repository := vcs_repository p; support_contacts :=
     support_contacts p; bug_tracking_url := bug_tracking_url p;
     code_view_url := code_view_url p |}.

Definition set_metafile_locations (v : list string) (p : Package) : Package :=
  {| type := type p; primary_language := primary_language p; location :=
     location p; metafile_locations := v; name := name p; summary := summary
     p; keywords := keywords p; version := version p; homepage_url :=
     homepage_url p; authors := authors p; asserted_licenses :=
     asserted_licenses p; dependencies := dependencies p; vcs_tool :=
     vcs_tool p; vcs_repository := vcs_repository p; support_contacts :=
     support_contacts p; bug_tracking_url := bug_tracking_url p;
     code_view_url := code_view_url p |}.

Definition set_name (v : json) (p : Package) : Package :=
  {| type := type p; primary_language := primary_language p; location :=
     location p; metafile_locations := metafile_locations p; name := v;
     summary := summary p; keywords := keywords p; version := version p;
     homepage_url := homepage_url p; authors := authors p; asserted_licenses
     := asserted_licenses p; dependencies := dependencies p; vcs_tool :=
     vcs_tool p; vcs_repository := vcs_repository p; support_contacts :=
     support_contacts p; bug_tracking_url := bug_tracking_url p;
     code_view_url := code_view_url p |}.

Definition set_summary (v : json) (p : Package) : Package :=
  {| type := type p; primary_language := primary_language p; location :=
     location p; metafile_locations := metafile_locations p; name := name p;
     summary := v; keywords := keywords p; version := version p;
     homepage_url := homepage_url p; authors := authors p; asserted_licenses
     := asserted_licenses p; dependencies := dependencies p; vcs_tool :=
     vcs_tool p; vcs_repository := vcs_repository p; support_contacts :=
     support_contacts p; bug_tracking_url := bug_tracking_url p;
     code_view_url := code_view_url p |}.

Definition set_keywords (v : json) (p : Package) : Package :=
  {| type := type p; primary_language := primary_language p; location :=
     location p; metafile_locations := metafile_locations p; name := name p;
     summary := summary p; keywords := v; version := version p; homepage_url
     := homepage_url p; authors := authors p; asserted_licenses :=
     asserted_licenses p; dependencies := dependencies p; vcs_tool :=
     vcs_tool p; vcs_repository := vcs_repository p; support_contacts :=
     support_contacts p; bug_tracking_url := bug_tracking_url p;
     code_view_url := code_view_url p |}.

Definition set_version (v : json) (p : Package) : Package :=
  {| type := type p; primary_language := primary_language p; location :=
     location p; metafile_locations := metafile_locations p; name := name p;
     summary := summary p; keywords := keywords p; version := v;
     homepage_url := homepage_url p; authors := authors p; asserted_licenses
     := asserted_licenses p; dependencies := dependencies p; vcs_tool :=
     vcs_tool p; vcs_repository := vcs_repository p; support_contacts :=
     support_contacts p; bug_tracking_url := bug_tracking_url p;
     code_view_url := code_view_url p |}.

Definition set_homepage_url (v : json) (p : Package) : Package :=
  {| type := type p; primary_language := primary_language p; location :=
     location p; metafile_locations := metafile_locations p; name := name p;
     summary := summary p; keywords := keywords p; version := version p;
     homepage_url := v; authors := authors p; asserted_licenses :=
     asserted_licenses p; dependencies := dependencies p; vcs_tool :=
     vcs_tool p; vcs_repository := vcs_repository p; support_contacts :=
     support_contacts p; bug_tracking_url := bug_tracking_url p;
     code_view_url := code_view_url p |}.

Definition set_authors (v : list Party) (p : Package) : Package :=
  {| type := type p; primary_language := primary_language p; location :=
     location p; metafile_locations := metafile_locations p; name := name p;
     summary := summary p; keywords := keywords p; version := version p;
     homepage_url := homepage_url p; authors := v; asserted_licenses :=
     asserted_licenses p; dependencies := dependencies p; vcs_tool :=
     vcs_tool p; vcs_repository := vcs_repository p; support_contacts :=
     support_contacts p; bug_tracking_url := bug_tracking_url p;
     code_view_url := code_view_url p |}.

Definition set_asserted_licenses (v : list AssertedLicense) (p : Package) : Package :=
  {| type := type p; primary_language := primary_language p; location :=
     location p; metafile_locations := metafile_locations p; name := name p;
     summary := summary p; keywords := keywords p; version := version p;
     homepage_url := homepage_url p; authors := authors p; asserted_licenses
     := v; dependencies := dependencies p; vcs_tool := vcs_tool p;
     vcs_repository := vcs_repository p; support_contacts :=
     support_contacts p; bug_tracking_url := bug_tracking_url p;
     code_view_url := code_view_url p |}.

Definition set_dependencies (v : gmap string (list Dependency)) (p : Package) : Package :=
  {| type := type p; primary_language := primary_language p; location :=
     location p; metafile_locations := metafile_locations p; name := name p;
     summary := summary p; keywords := keywords p; version := version p;
     homepage_url := homepage_url p; authors := authors p; asserted_licenses
     := asserted_licenses p; dependencies := v; vcs_tool := vcs_tool p;
     vcs_repository := vcs_repository p; support_contacts :=
     support_contacts p; bug_tracking_url := bug_tracking_url p;
     code_view_url := code_view_url p |}.

Definition set_vcs_tool (v : option string) (p : Package) : Package :=
  {| type := type p; primary_language := primary_language p; location :=
     location p; metafile_locations := metafile_locations p; name := name p;
     summary := summary p; keywords := keywords p; version := version p;
     homepage_url := homepage_url p; authors := authors p; asserted_licenses
     := asserted_licenses p; dependencies := dependencies p; vcs_tool := v;
     vcs_repository := vcs_repository p; support_contacts :=
     support_contacts p; bug_tracking_url := bug_tracking_url p;
     code_view_url := code_view_url p |}.

Definition set_vcs_repository (v : option string) (p : Package) : Package :=
  {| type := type p; primary_language := primary_language p; location :=
     location p; metafile_locations := metafile_locations p; name := name p;
     summary := summary p; keywords := keywords p; version := version p;
     homepage_url := homepage_url p; authors := authors p; asserted_licenses
     := asserted_licenses p; dependencies := dependencies p; vcs_tool :=
     vcs_tool p; vcs_repository := v; support_contacts := support_contacts
     p; bug_tracking_url := bug_tracking_url p; code_view_url :=
     code_view_url p |}.

Definition set_support_contacts (v : list json) (p : Package) : Package :=
  {| type := type p; primary_language := primary_language p; location :=
     location p; metafile_locations := metafile_locations p; name := name p;
     summary := summary p; keywords := keywords p; version := version p;
     homepage_url := homepage_url p; authors := authors p; asserted_licenses
     := asserted_licenses p; dependencies := dependencies p; vcs_tool :=
     vcs_tool p; vcs_repository := vcs_repository p; support_contacts := v;
     bug_tracking_url := bug_tracking_url p; code_view_url := code_view_url
     p |}.

Definition set_bug_tracking_url (v : json) (p : Package) : Package :=
  {| type := type p; primary_language := primary_language p; location :=
     location p; metafile_locations := metafile_locations p; name := name p;
     summary := summary p; keywords := keywords p; version := version p;
     homepage_url := homepage_url p; authors := authors p; asserted_licenses
     := asserted_licenses p; dependencies := dependencies p; vcs_tool :=
     vcs_tool p; vcs_repository := vcs_repository p; support_contacts :=
     support_contacts p; bug_tracking_url := v; code_view_url :=
     code_view_url p |}.

Definition set_code_view_url (v : json) (p : Package) : Package :=
  {| type := type p; primary_language := primary_language p; location :=
     location p; metafile_locations := metafile_locations p; name := name p;
     summary := summary p; keywords := keywords p; version := version p;
     homepage_url := homepage_url p; authors := authors p; asserted_licenses
     := asserted_licenses p; dependencies := dependencies p; vcs_tool :=
     vcs_tool p; vcs_repository := vcs_repository p; support_contacts :=
     support_contacts p; bug_tracking_url := bug_tracking_url p;
     code_view_url := v |}.

(** ** Mappers as computations on the package

    A mapper receives the package and mutates it in place.  [M A] threads the
    package through; a raised exception leaves the assignments made before it
    in place. *)

Definition M (A : Type) : Type := Package -> pyres A * Package.

#[global] Instance M_ret : MRet M := fun A a p => (Ok a, p).
#[global] Instance M_bind : MBind M := fun A B k m p =>
  match m p with
  | (Ok a, p') => k a p'
  | (Raise e, p') => (Raise e, p')
  end.

(** A computation that does not touch the package. *)
Definition lift {A : Type} (r : pyres A) : M A := fun p => (r, p).

Definition modify (f : Package -> Package) : M unit := fun p => (Ok tt, f p).

(** [for x in l: body] *)
Fixpoint for_each {A : Type} (l : list A) (body : A -> M unit) : M unit :=
  match l with
  | [] => mret tt
  | x :: l' => body x ;; for_each l' body
  end.

(** [[f(x) for x in l]] where [f] may raise. *)
Fixpoint traverse {A B : Type} (f : A -> pyres B) (l : list A) : pyres (list B) :=
  match l with
  | [] => Ok []
  | x :: l' => y ← f x; ys ← traverse f l'; Ok (y :: ys)
  end.

(** [v.strip()] when [v] is a string, as the two loops of [parse] do. *)
Definition strip_if_basestring (v : json) : json :=
  match v with
  | JStr s => JStr (Str.strip s)
  | _ => v
  end.

(** [v and v.strip(chars)]: [v] itself when it is falsy. *)
Definition and_strip (drop : ascii -> bool) (v : json) : pyres json :=
  if truthy v then
    match v with
    | JStr s => Ok (JStr (Str.strip_by drop s))
    | _ => Raise AttributeError
    end
  else Ok v.

(** [v == s] for a string literal [s]. *)
Definition eq_str (v : json) (s : string) : bool :=
  match v with
  | JStr s' => String.eqb s' s
  | _ => false
  end.

(** [v.startswith(p)] on any object: only a string has the method. *)
Definition startswith (v : json) (p : string) : pyres bool :=
  match v with
  | JStr s => Ok (Str.startswith s p)
  | _ => Raise AttributeError
  end.

(** [parse_repo_url(v)] on any object: the first thing done with the
    argument is [v.startswith]. *)
Definition parse_repo_url_of (v : json) : pyres string :=
  match v with
  | JStr s => parse_repo_url s
  | _ => Raise AttributeError
  end.

(** [template % locals()] for a template whose only placeholder is
    [%(key)r], at the end of the text [before]. *)
Definition percent_r (repr : json -> string) (before key : string)
    (locals : list (string * json)) : pyres string :=
  match List.find (fun kv => String.eqb (fst kv) key) locals with
  | Some (_, v) => Ok (before ++ repr v)
  | None => Raise (KeyError key)
  end.

(** ** What the module takes from outside

    [repr] is Python's built-in; the others are the file utilities of
    [commoncode], the contents of a file, and the two stages of
    [json.load] on a stream opened with [codecs.open(..., 'utf-8')]. *)
Record Host : Type := mkHost
  { repr : json -> string;
    is_file : string -> bool;
    file_name : string -> string;
    parent_directory : string -> string;
    read_file : string -> list Byte.byte;
    decode_utf8 : list Byte.byte -> option string;
    json_loads : string -> option json }.

Section PHPComposer.

Variable host : Host.

Definition is_phpcomposer_json (location : string) : bool :=
  is_file host location
  && String.eqb (Str.lower (file_name host location)) "composer.json".

Definition append_license (text : string) : M unit :=
  modify (fun p =>
    set_asserted_licenses (asserted_licenses p ++ [mkAssertedLicense text]) p).

Definition licensing_mapper (licenses : json) : M unit :=
  if negb (truthy licenses) then mret tt
  else match licenses with
       | JStr s => append_license s
       | JList l =>
           for_each l (fun lic =>
             match lic with
             | JStr s => append_license s
             | _ => if truthy lic then append_license (repr host lic)
                    else mret tt
             end)
       | _ => append_license (repr host licenses)
       end.

(** One step of the generator's loop: the tuple yielded for [person]. *)
Definition person_tuple (person : json) : pyres (json * json * json) :=
  name ← get person "name";
  email ← get person "email";
  url ← get person "homepage";
  n ← and_strip Str.isspace name;
  e ← and_strip (Str.in_chars "<> ") email;
  u ← and_strip (Str.in_chars "() ") url;
  Ok (n, e, u).

(** The generator, run to its end.  In the [else] branch the only local
    name is [persons], while the message asks for [person]. *)
Definition parse_person (persons : json) : pyres (list (json * json * json)) :=
  match persons with
  | JList l => traverse person_tuple l
  | _ =>
      msg ← percent_r (repr host)
              "Incorrect PHP composer composer.json person: " "person"
              [("persons", persons)];
      Raise (PyException msg)
  end.

Definition author_mapper (authors_content : json) : M unit :=
  persons ← lift (parse_person authors_content);
  modify (set_authors
            (map (fun '(name, email, url) =>
                    mkParty party_person name email url) persons)).

Definition support_mapper (support : json) : M unit :=
  email ← lift (get support "email");
  modify (set_support_contacts [email]);;
  issues ← lift (get support "issues");
  modify (set_bug_tracking_url issues);;
  source ← lift (get support "source");
  modify (set_code_view_url source).

(** The body of the loop of [repository_mapper]. *)
Definition repository_step (repo : json) : M unit :=
  ty ← lift (get repo "type");
  if eq_str ty "vcs" then
    repo_url ← lift (get repo "url");
    is_svn ← lift (startswith repo_url "svn");
    (if (is_svn : bool) return M unit then modify (set_vcs_tool (Some "svn"))
     else
       is_hg ← lift (startswith repo_url "hg");
       if (is_hg : bool) return M unit then modify (set_vcs_tool (Some "hg"))
       else
         is_cvs ← lift (startswith repo_url "cvs");
         if (is_cvs : bool) return M unit then modify (set_vcs_tool (Some "cvs"))
         else modify (set_vcs_tool (Some "git")));;
    again ← lift (get repo "url");
    resolved ← lift (parse_repo_url_of again);
    modify (set_vcs_repository (Some resolved))
  else mret tt.

Definition repository_mapper (repos : json) : M unit :=
  if negb (truthy repos) then mret tt
  else match repos with
       | JStr s =>
           resolved ← lift (parse_repo_url s);
           modify (set_vcs_repository (Some resolved))
       | JList l => for_each l repository_step
       | _ => mret tt
       end.

Definition dep_types : list (string * string) :=
  [ ("dependencies", dep_runtime); ("devDependencies", dep_dev) ].

(** [deps.items()] *)
Definition items (deps : json) : pyres (list (string * json)) :=
  match deps with
  | JObj o => Ok o
  | _ => Raise AttributeError
  end.

Definition deps_mapper (deps : json) (field_name : string) : M unit :=
  resolved_type ← lift (subscript dep_types field_name);
  pairs ← lift (items deps);
  let dependencies' :=
    map (fun '(name, version_constraint) =>
           mkDependency name version_constraint) pairs in
  modify (fun p =>
    match dependencies p !! (resolved_type : string) with
    | Some existing =>
        set_dependencies
          (<[resolved_type := (existing ++ dependencies')%list]>
             (dependencies p)) p
    | None =>
        set_dependencies
          (<[resolved_type := dependencies']> (dependencies p)) p
    end).

Definition dependencies_mapper (deps : json) : M unit :=
  deps_mapper deps "dependencies".

Definition dev_dependencies_mapper (deps : json) : M unit :=
  deps_mapper deps "devDependencies".

Definition plain_fields : list (string * string) :=
  [ ("name", "name"); ("description", "summary"); ("keywords", "keywords");
    ("version", "version"); ("homepage", "homepage_url") ].

Definition field_mappers : list (string * (json -> M unit)) :=
  [ ("authors", author_mapper); ("license", licensing_mapper);
    ("require", dependencies_mapper);
    ("require-dev", dev_dependencies_mapper);
    ("repositories", repository_mapper); ("support", support_mapper) ].

(** [setattr(package, target, value)] for the targets of [plain_fields]. *)
Definition setattr (target : string) (value : json) (p : Package) : Package :=
  if String.eqb target "name" then set_name value p
  else if String.eqb target "summary" then set_summary value p
  else if String.eqb target "keywords" then set_keywords value p
  else if String.eqb target "version" then set_version value p
  else if String.eqb target "homepage_url" then set_homepage_url value p
  else p.

(** [json.load] on the stream of [codecs.open(location, encoding='utf-8')]. *)
Definition load (location : string) : pyres json :=
  match decode_utf8 host (read_file host location) with
  | None => Raise UnicodeDecodeError
  | Some text =>
      match json_loads host text with
      | None => Raise ValueError
      | Some data => Ok data
      end
  end.

(** What [parse] does to the package once it has created it. *)
Definition populate (location : string) (data : json) : M unit :=
  modify (set_location (Some (parent_directory host location)));;
  modify (set_metafile_locations [location]);;
  version ← lift (get data "version");
  modify (set_version version);;
  for_each plain_fields (fun '(source, target) =>
    value ← lift (get data source);
    if truthy value then
      let value := strip_if_basestring value in
      if truthy value then modify (setattr target value) else mret tt
    else mret tt);;
  for_each field_mappers (fun '(source, func) =>
    value ← lift (get data source);
    if truthy value then
      let value := strip_if_basestring value in
      if truthy value then func value else mret tt
    else mret tt).

(** [None] is Python's [return] without a value. *)
Definition parse (location : string) : pyres (option Package) :=
  if negb (is_phpcomposer_json location) then Ok None
  else
    data ← load location;
    name ← get data "name";
    if negb (truthy name) then Ok None
    else
      description ← get data "description";
      if negb (truthy description) then Ok None
      else
        match populate location data PHPComposerPackage with
        | (Ok _, package) => Ok (Some package)
        | (Raise e, _) => Raise e
        end.

(** [PHPComposerPackage.recognize] *)
Definition recognize (location : string) : pyres (option Package) :=
  parse location.

End PHPComposer.

(** * The specification's vocabulary

    Definitions that follow the words of the specification rather than the
    source, and the sample inputs the properties are tried on. *)

(** Rules 1 to 4 of the resolution: a full URL, the SSH shorthand, a gist,
    a hoster prefix. *)
Definition earlier_rule_applies (repo_url : string) : bool :=
  Str.startswith_any repo_url VCS_URLS
  || Str.startswith repo_url "git@"
  || Str.startswith repo_url "gist:"
  || Str.startswith_any repo_url ["bitbucket:"; "gitlab:"; "github:"].

(** The shorthand of rule 5 as the specification words it: two pieces, none
    of them empty. *)
Definition two_nonempty_segments (repo_url : string) : bool :=
  match Str.split "/" repo_url with
  | [owner; repo] => negb (String.eqb owner "") && negb (String.eqb repo "")
  | _ => false
  end.

(** The assertions the specification lists for a non-empty [license]
    value: the text itself, one entry per element of a list (strings
    verbatim, other non-empty elements by their representation), or the
    representation of the whole value. *)
Definition license_texts (host : Host) (licenses : json) : list string :=
  match licenses with
  | JStr s => [s]
  | JList l =>
      flat_map (fun lic =>
        match lic with
        | JStr s => [s]
        | _ => if truthy lic then [repr host lic] else []
        end) l
  | _ => [repr host licenses]
  end.

Definition with_licenses (texts : list string) (p : Package) : Package :=
  set_asserted_licenses
    (asserted_licenses p ++ map mkAssertedLicense texts) p.

(** The two assignments [repository_mapper] makes for a [vcs] descriptor. *)
Definition set_vcs (tool resolved : string) (p : Package) : Package :=
  set_vcs_repository (Some resolved) (set_vcs_tool (Some tool) p).

(** The tool the specification reads off the start of a URL. *)
Definition vcs_tool_of (repo_url : string) : string :=
  if Str.startswith repo_url "svn" then "svn"
  else if Str.startswith repo_url "hg" then "hg"
  else if Str.startswith repo_url "cvs" then "cvs"
  else "git".

(** [k in d] for a dict [d] *)
Definition has_key (o : list (string * json)) (k : string) : bool :=
  existsb (fun kv => String.eqb (fst kv) k) o.

(** The URL of a descriptor of type [vcs]; nothing for any other element. *)
Definition vcs_url (descriptor : json) : option string :=
  match descriptor with
  | JObj o =>
      if eq_str (dict_get o "type") "vcs" then
        match dict_get o "url" with
        | JStr u => Some u
        | _ => None
        end
      else None
  | _ => None
  end.

(** A descriptor the mapper can process: a mapping and, when its type is
    [vcs], one whose URL is a text that [parse_repo_url] resolves. *)
Definition well_formed_descriptor (descriptor : json) : bool :=
  match descriptor with
  | JObj o =>
      if eq_str (dict_get o "type") "vcs" then
        match dict_get o "url" with
        | JStr u => match parse_repo_url u with Ok _ => true | Raise _ => false end
        | _ => false
        end
      else true
  | _ => false
  end.

(** The entries a package holds for a kind; none when the kind is absent. *)
Definition existing (p : Package) (kind : string) : list Dependency :=
  default [] (dependencies p !! kind).

(** The batch one call builds: one pair per item of the mapping, in order. *)
Definition batch (deps : list (string * json)) : list Dependency :=
  map (fun '(name, version_constraint) => mkDependency name version_constraint)
      deps.

(** "Absent, or empty after trimming", in the words of the specification. *)
Definition absent_or_blank (v : json) : bool :=
  negb (truthy (strip_if_basestring v)).

(** A host with one file, [/pkg/composer.json]: [text] is what its bytes
    decode to, if they do, and [data] what that text parses to, if it does.
    Its [repr] is a placeholder. *)
Definition sample_host (text : option string) (data : option json) : Host :=
  {| repr := fun _ => "<repr>";
     is_file := fun location => String.eqb location "/pkg/composer.json";
     file_name := fun _ => "composer.json";
     parent_directory := fun _ => "/pkg";
     read_file := fun _ => [];
     decode_utf8 := fun _ => text;
     json_loads := fun _ => data |}.

Definition blank_name_manifest : json :=
  JObj [("name", JStr "   "); ("description", JStr "d")].

(** * Vocabulary of the further properties *)

(** [m] leaves what [f] reads of the package as it was, whether it returns
    or raises. *)
Definition keeps {A B : Type} (f : Package -> A) (m : M B) : Prop :=
  forall p, f (snd (m p)) = f p.

(** A value [v and v.strip(...)] accepts: a text, or anything false. *)
Definition strippable (v : json) : bool :=
  match v with
  | JStr _ => true
  | _ => negb (truthy v)
  end.

(** A person the author mapper can process: a mapping whose [name],
    [email] and [homepage] are texts, false or absent. *)
Definition simple_person (person : json) : bool :=
  match person with
  | JObj o =>
      strippable (dict_get o "name") && strippable (dict_get o "email")
      && strippable (dict_get o "homepage")
  | _ => false
  end.

Definition stripped (drop : ascii -> bool) (v : json) : json :=
  match v with
  | JStr s => JStr (Str.strip_by drop s)
  | _ => v
  end.

Definition from_pyres {A : Type} (r : pyres A) : option A :=
  match r with
  | Ok a => Some a
  | Raise _ => None
  end.

(** The party built for a person. *)
Definition party_of (person : json) : Party :=
  mkParty party_person
    (stripped Str.isspace (default JNull (from_pyres (get person "name"))))
    (stripped (Str.in_chars "<> ") (default JNull (from_pyres (get person "email"))))
    (stripped (Str.in_chars "() ") (default JNull (from_pyres (get person "homepage")))).

(** What a plain field of the manifest leaves in its attribute: the value,
    trimmed when it is a text, or nothing when that is false. *)
Definition plain_value (v : json) : json :=
  let v' := strip_if_basestring v in if truthy v' then v' else JNull.

(** What the manifest leaves in [version]: as [plain_value], except that a
    value false once trimmed stays as it was read. *)
Definition version_value (v : json) : json :=
  let v' := strip_if_basestring v in if truthy v' then v' else v.

(** The argument a field mapper receives for a manifest value, if it is
    called at all. *)
Definition mapper_argument (v : json) : option json :=
  let v' := strip_if_basestring v in if truthy v' then Some v' else None.

(** The party [author_mapper] builds from a tuple of the generator. *)
Definition party_of_tuple (t : json * json * json) : Party :=
  let '(name, email, url) := t in mkParty party_person name email url.

(** What one call of the license mapper appends. *)
Definition appended_texts (host : Host) (licenses : json) : list string :=
  if truthy licenses then license_texts host licenses else [].

(** [isinstance(v, dict)] *)
Definition is_dict (v : json) : bool :=
  match v with JObj _ => true | _ => false end.

(** The values [vcs_tool] can take once the repository mapper has set it. *)
Definition vcs_tools : list (option string) :=
  [Some "svn"; Some "hg"; Some "cvs"; Some "git"].

(** [isinstance(v, basestring) or isinstance(v, list)] *)
Definition is_basestring_or_list (v : json) : bool :=
  match v with JStr _ | JList _ => true | _ => false end.

(** One round of the loop over [plain_fields]: the attribute [target]
    receives the value, trimmed when it is a text, unless that is false. *)
Definition plain_step (target : string) (v : json) (p : Package) : Package :=
  let v' := strip_if_basestring v in if truthy v' then setattr target v' p else p.

(** The package once [parse] has set the provenance, the version and the
    plain fields of the manifest [o]. *)
Definition with_plain_fields (host : Host) (location : string)
    (o : list (string * json)) (p : Package) : Package :=
  fold_left (fun q '(source, target) => plain_step target (dict_get o source) q)
    plain_fields
    (set_version (dict_get o "version")
       (set_metafile_locations [location]
          (set_location (Some (parent_directory host location)) p))).

(** One round of the loop over [field_mappers]: the mapper is called on
    the value, trimmed when it is a text, unless that is false. *)
Definition call_mapper (o : list (string * json))
    (entry : string * (json -> M unit)) : M unit :=
  match mapper_argument (dict_get o (fst entry)) with
  | Some v => snd entry v
  | None => mret tt
  end.

(** The keys of the manifest that have a mapper. *)
Definition mapped_keys : list string :=
  ["authors"; "license"; "require"; "require-dev"; "repositories"; "support"].

(** The dependencies [parse] leaves for a key of the manifest: the batch
    of a non-empty mapping, and no entry at all otherwise. *)
Definition parsed_dependencies (v : json) : option (list Dependency) :=
  match v with
  | JObj (item :: deps) => Some (batch (item :: deps))
  | _ => None
  end.

(** A manifest with every kind of field, some with white space around. *)
Definition sample_manifest : list (string * json) :=
  [ ("name", JStr " acme/tools "); ("description", JStr "Tools");
    ("version", JStr " "); ("license", JStr " MIT ");
    ("authors", JList [JObj [("name", JStr "A"); ("email", JStr "<a@b.com>")]]);
    ("require", JObj [("php", JStr ">=5.3")]);
    ("require-dev", JObj [("phpunit/phpunit", JStr "^4.0")]);
    ("repositories", JList [JObj [("type", JStr "vcs"); ("url", JStr "acme/tools")]]);
    ("support", JObj [("issues", JStr "https://example.org/issues")]) ].

(** * Properties *)

(** ** Strings *)

Module StrFacts.

Lemma cut_None_of_not_contains (c : ascii) (s : string) :
  Str.contains (String c EmptyString) s = false -> Str.cut c s = None.
Proof.
  induction s as [|a s IH]; simpl; [reflexivity|].
  rewrite (Ascii.eqb_sym c a).
  destruct (Ascii.eqb a c); simpl; [discriminate|].
  intros H. rewrite (IH H). reflexivity.
Qed.

Lemma split_not_nil (c : ascii) (s : string) : Str.split c s <> [].
Proof.
  destruct s as [|a s]; simpl; [discriminate|].
  destruct (Ascii.eqb a c); [discriminate|].
  destruct (Str.split c s); discriminate.
Qed.

(** A text that splits into one piece is that piece. *)
Lemma split_one (c : ascii) (s b : string) : Str.split c s = [b] -> s = b.
Proof.
  revert b. induction s as [|a s IH]; simpl; intros b H.
  - congruence.
  - destruct (Ascii.eqb a c).
    + injection H as _ H. destruct (split_not_nil _ _ H).
    + destruct (Str.split c s) as [|h t] eqn:E.
      { destruct (split_not_nil _ _ E). }
      injection H as <- ->. f_equal. apply IH. reflexivity.
Qed.

(** A text that splits into two pieces is the two around one separator. *)
Lemma split_two (c : ascii) (s a b : string) :
  Str.split c s = [a; b] -> s = a ++ String c b.
Proof.
  revert a. induction s as [|x s IH]; simpl; intros a H.
  - discriminate.
  - destruct (Ascii.eqb x c) eqn:Ex.
    + apply Ascii.eqb_eq in Ex. subst x.
      injection H as <- H. apply split_one in H. subst s. reflexivity.
    + destruct (Str.split c s) as [|h t] eqn:E; [discriminate|].
      injection H as <- ->.
      change (String x s = String x (h ++ String c b)).
      f_equal. apply IH. reflexivity.
Qed.

End StrFacts.

(** ** Repository URLs *)

Lemma parse_repo_url_fallthrough (repo_url : string) :
  earlier_rule_applies repo_url = false ->
  parse_repo_url repo_url =
    if (length (Str.split "/" repo_url) =? 2)%nat
    then Ok ("https://github.com/" ++ repo_url) else Ok repo_url.
Proof.
  unfold earlier_rule_applies, parse_repo_url.
  destruct (Str.startswith_any repo_url VCS_URLS); [discriminate|].
  destruct (Str.startswith repo_url "git@"); [discriminate|].
  destruct (Str.startswith repo_url "gist:"); [discriminate|].
  destruct (Str.startswith_any repo_url _); [discriminate|].
  reflexivity.
Qed.

(** C2: the table of the specification, entry by entry.  Five entries
    resolve as stated; [github:foo/bar] does not: the key looked up in
    [hoster_urls] is [github], without the colon the keys carry. *)
Theorem parse_repo_url_table :
  parse_repo_url "git@github.com:balderdashy/waterline-criteria.git"
    = Ok "https://github.com/balderdashy/waterline-criteria.git"
  /\ parse_repo_url "gist:11081aaa281" = Ok "gist:11081aaa281"
  /\ parse_repo_url "github:foo/bar" = Raise (KeyError "github")
  /\ parse_repo_url "expressjs/serve-static"
       = Ok "https://github.com/expressjs/serve-static"
  /\ parse_repo_url "https://github.com/chaijs/chai"
       = Ok "https://github.com/chaijs/chai"
  /\ parse_repo_url "git@unknownhost.com:foo/bar.git"
       = Ok "git@unknownhost.com:foo/bar.git".
Proof. repeat split; reflexivity. Qed.

(** C3, as stated, fails on a shorthand with an empty piece: [foo/] matches
    none of the earlier rules and does not split into two non-empty pieces,
    yet it is not returned unchanged. *)
Lemma parse_repo_url_empty_segment :
  earlier_rule_applies "foo/" = false
  /\ two_nonempty_segments "foo/" = false
  /\ parse_repo_url "foo/" = Ok "https://github.com/foo/"
  /\ parse_repo_url "foo/" <> Ok "foo/".
Proof. repeat split; try reflexivity. discriminate. Qed.

(** C3, amended: for a text that matches none of the earlier rules, when
    splitting on [/] gives exactly two pieces, empty or not, the result is
    [https://github.com/{owner}/{repo}]; with any other number of pieces the
    text is returned unchanged. *)
Theorem parse_repo_url_shorthand (repo_url : string) :
  earlier_rule_applies repo_url = false ->
  (forall owner repo, Str.split "/" repo_url = [owner; repo] ->
     parse_repo_url repo_url = Ok ("https://github.com/" ++ owner ++ "/" ++ repo))
  /\ (length (Str.split "/" repo_url) <> 2 ->
      parse_repo_url repo_url = Ok repo_url).
Proof.
  intros H. rewrite (parse_repo_url_fallthrough _ H). split.
  - intros owner repo E. rewrite E. simpl.
    rewrite (StrFacts.split_two _ _ _ _ E). reflexivity.
  - intros N. apply Nat.eqb_neq in N. rewrite N. reflexivity.
Qed.

Lemma parse_repo_url_shorthand_witness :
  parse_repo_url "expressjs/serve-static"
    = Ok ("https://github.com/" ++ "expressjs" ++ "/" ++ "serve-static")
  /\ parse_repo_url "a/b/c" = Ok "a/b/c".
Proof.
  split.
  - apply (parse_repo_url_shorthand "expressjs/serve-static"); reflexivity.
  - apply (parse_repo_url_shorthand "a/b/c"); [reflexivity|].
    simpl. discriminate.
Defined.

(** C9: a text that starts with [git@] and has no [:] after it raises
    [ValueError]: the second split gives one piece where two are unpacked. *)
Theorem parse_repo_url_git_at_no_colon (rest : string) :
  Str.contains ":" rest = false ->
  parse_repo_url ("git@" ++ rest) = Raise ValueError.
Proof.
  intros H. apply StrFacts.cut_None_of_not_contains in H.
  change ("git@" ++ rest) with (String "g" (String "i" (String "t" (String "@" rest)))).
  unfold parse_repo_url. simpl. unfold Str.split1. rewrite H. reflexivity.
Qed.

Lemma parse_repo_url_git_at_no_colon_witness :
  parse_repo_url "git@github.com" = Raise ValueError.
Proof.
  apply (parse_repo_url_git_at_no_colon "github.com"). reflexivity.
Defined.

(** ** Running a mapper *)

Lemma run_bind {A B : Type} (m : M A) (k : A -> M B) (p : Package) :
  (m ≫= k) p =
    match m p with
    | (Ok a, p') => k a p'
    | (Raise e, p') => (Raise e, p')
    end.
Proof. reflexivity. Qed.

Lemma run_for_each_cons {A : Type} (x : A) (l : list A) (body : A -> M unit)
    (p : Package) :
  for_each (x :: l) body p =
    match body x p with
    | (Ok _, p') => for_each l body p'
    | (Raise e, p') => (Raise e, p')
    end.
Proof. reflexivity. Qed.

Lemma run_lift_ok {A B : Type} (a : A) (k : A -> M B) (p : Package) :
  (lift (Ok a) ≫= k) p = k a p.
Proof. reflexivity. Qed.

Lemma run_lift_raise {A B : Type} (e : exn) (k : A -> M B) (p : Package) :
  (lift (Raise e) ≫= k) p = (Raise e, p).
Proof. reflexivity. Qed.

Lemma run_modify {B : Type} (f : Package -> Package) (k : unit -> M B)
    (p : Package) :
  (modify f ≫= k) p = k tt (f p).
Proof. reflexivity. Qed.

Lemma run_bind_assoc {A B C : Type} (m : M A) (k1 : A -> M B) (k2 : B -> M C)
    (p : Package) :
  ((m ≫= k1) ≫= k2) p = (m ≫= (fun a => k1 a ≫= k2)) p.
Proof. rewrite !run_bind. destruct (m p) as [[a|e] q]; reflexivity. Qed.

(** Runs the steps of a computation whose outcome is known. *)
Ltac run :=
  repeat (first [ rewrite run_bind_assoc | rewrite run_lift_ok
                | rewrite run_lift_raise | rewrite run_modify ];
          cbv beta).

(** Once the body raises, the loop raises, whatever follows. *)
Lemma for_each_raises {A : Type} (body : A -> M unit) (before after : list A)
    (x : A) (p : Package) :
  (forall q, exists e q', body x q = (Raise e, q')) ->
  exists e q', for_each (before ++ x :: after) body p = (Raise e, q').
Proof.
  intros Hx. revert p. induction before as [|y before IH]; intros p.
  - simpl app. rewrite run_for_each_cons.
    destruct (Hx p) as (e & q' & ->). eauto.
  - simpl app. rewrite run_for_each_cons.
    destruct (body y p) as [[[]|e] q]; [apply IH | eauto].
Qed.

(** ** Assignments to the package *)

Lemma asserted_licenses_set (v : list AssertedLicense) (p : Package) :
  asserted_licenses (set_asserted_licenses v p) = v.
Proof. reflexivity. Qed.

Lemma set_asserted_licenses_twice (v w : list AssertedLicense) (p : Package) :
  set_asserted_licenses w (set_asserted_licenses v p) = set_asserted_licenses w p.
Proof. reflexivity. Qed.

Lemma set_asserted_licenses_same (p : Package) :
  set_asserted_licenses (asserted_licenses p) p = p.
Proof. destruct p; reflexivity. Qed.

Lemma set_vcs_twice (t1 r1 t2 r2 : string) (p : Package) :
  set_vcs t2 r2 (set_vcs t1 r1 p) = set_vcs t2 r2 p.
Proof. reflexivity. Qed.

(** ** The license mapper *)

Section Licensing.

Variable host : Host.

Lemma with_licenses_nil (p : Package) : with_licenses [] p = p.
Proof.
  unfold with_licenses. simpl. rewrite app_nil_r.
  apply set_asserted_licenses_same.
Qed.

Lemma with_licenses_app (xs ys : list string) (p : Package) :
  with_licenses ys (with_licenses xs p) = with_licenses (xs ++ ys) p.
Proof.
  unfold with_licenses.
  rewrite asserted_licenses_set, set_asserted_licenses_twice.
  rewrite map_app, app_assoc. reflexivity.
Qed.

Lemma run_append_license (text : string) (p : Package) :
  append_license text p = (Ok tt, with_licenses [text] p).
Proof. reflexivity. Qed.

Lemma licensing_loop (l : list json) (p : Package) :
  for_each l (fun lic =>
      match lic with
      | JStr s => append_license s
      | _ => if truthy lic then append_license (repr host lic) else mret tt
      end) p
  = (Ok tt, with_licenses (license_texts host (JList l)) p).
Proof.
  revert p. induction l as [|lic l IH]; intros p.
  - simpl. rewrite with_licenses_nil. reflexivity.
  - rewrite run_for_each_cons.
    assert (Hstep :
      (match lic with
       | JStr s => append_license s
       | _ => if truthy lic then append_license (repr host lic) else mret tt
       end) p
      = (Ok tt, with_licenses (license_texts host (JList [lic])) p)).
    { unfold license_texts, flat_map. rewrite app_nil_r.
      destruct lic as [| b | z | f | s | l' | o];
        try apply run_append_license;
        (destruct (truthy _);
         [apply run_append_license | rewrite with_licenses_nil; reflexivity]). }
    rewrite Hstep, IH, with_licenses_app.
    unfold license_texts. simpl flat_map. rewrite app_nil_r. reflexivity.
Qed.

End Licensing.

(** C5, as stated, fails on the empty text and on zero: the mapper returns
    at once and appends nothing, where one assertion is claimed. *)
Lemma licensing_mapper_empty_value :
  licensing_mapper (sample_host None None) (JStr "") PHPComposerPackage
    = (Ok tt, PHPComposerPackage)
  /\ asserted_licenses
       (snd (licensing_mapper (sample_host None None) (JStr "")
               PHPComposerPackage)) = []
  /\ asserted_licenses
       (snd (licensing_mapper (sample_host None None) (JInt 0)
               PHPComposerPackage)) = [].
Proof. repeat split; reflexivity. Qed.

(** C5, amended: on a non-empty value (one that is true for Python) the
    license mapper appends the assertions of [license_texts], in order;
    on an empty one (the empty text, the empty list, [None], zero, an
    empty mapping) it leaves the package as it is.  It never raises. *)
Theorem licensing_mapper_appends (host : Host) (licenses : json)
    (p : Package) :
  licensing_mapper host licenses p =
    (Ok tt, if truthy licenses then with_licenses (license_texts host licenses) p
            else p).
Proof.
  unfold licensing_mapper.
  destruct (truthy licenses) eqn:T; simpl negb; cbv iota; [|reflexivity].
  destruct licenses; try apply run_append_license.
  apply licensing_loop.
Qed.

(** ** The repository mapper *)

Lemma dict_get_absent (o : list (string * json)) (k : string) :
  has_key o k = false -> dict_get o k = JNull.
Proof.
  induction o as [|[k' v] o IH]; simpl; [reflexivity|].
  destruct (String.eqb k' k); simpl; [discriminate | exact IH].
Qed.

Lemma repository_step_vcs (o : list (string * json)) (u r : string) (p : Package) :
  eq_str (dict_get o "type") "vcs" = true ->
  dict_get o "url" = JStr u ->
  parse_repo_url u = Ok r ->
  repository_step (JObj o) p = (Ok tt, set_vcs (vcs_tool_of u) r p).
Proof.
  intros Ht Hu Hr. unfold repository_step, vcs_tool_of. cbn [get].
  run. rewrite Ht, Hu. run. cbn [startswith parse_repo_url_of]. run.
  destruct (Str.startswith u "svn"); [|run; destruct (Str.startswith u "hg")];
    [| |run; destruct (Str.startswith u "cvs")];
    run; cbn [parse_repo_url_of]; rewrite Hr; run; reflexivity.
Qed.

Lemma repository_step_other (o : list (string * json)) (p : Package) :
  eq_str (dict_get o "type") "vcs" = false ->
  repository_step (JObj o) p = (Ok tt, p).
Proof.
  intros Ht. unfold repository_step. cbn [get]. run.
  rewrite Ht. reflexivity.
Qed.

(** A [vcs] descriptor whose URL is [None]: [None.startswith] fails before
    anything is assigned. *)
Lemma repository_step_no_url (o : list (string * json)) (p : Package) :
  eq_str (dict_get o "type") "vcs" = true ->
  dict_get o "url" = JNull ->
  repository_step (JObj o) p = (Raise AttributeError, p).
Proof.
  intros Ht Hu. unfold repository_step. cbn [get]. run.
  rewrite Ht, Hu. run. cbn [startswith]. run. reflexivity.
Qed.

Lemma repository_loop (l : list json) (p : Package) :
  forallb well_formed_descriptor l = true ->
  exists p', for_each l repository_step p = (Ok tt, p')
    /\ match last (omap vcs_url l) with
       | None => p' = p
       | Some u => exists r, parse_repo_url u = Ok r
                             /\ p' = set_vcs (vcs_tool_of u) r p
       end.
Proof.
  revert p. induction l as [|d l IH]; intros p Hwf.
  - exists p. split; reflexivity.
  - cbn [forallb] in Hwf. apply andb_prop in Hwf as [Hd Hl].
    rewrite run_for_each_cons.
    destruct d as [| | | | | |o]; try discriminate Hd.
    cbn [well_formed_descriptor] in Hd. cbn [omap list_omap vcs_url].
    destruct (eq_str (dict_get o "type") "vcs") eqn:Ht.
    + destruct (dict_get o "url") as [| | | |u| |] eqn:Hu; try discriminate Hd.
      destruct (parse_repo_url u) as [r|] eqn:Hr; [|discriminate Hd].
      rewrite (repository_step_vcs o u r p Ht Hu Hr).
      destruct (IH (set_vcs (vcs_tool_of u) r p) Hl) as (p' & Hrun & Hp').
      exists p'. split; [exact Hrun|].
      simpl. destruct (omap vcs_url l) as [|u1 us] eqn:E.
      * simpl in Hp'. simpl. exists r. split; [exact Hr | exact Hp'].
      * rewrite last_cons. destruct (last (u1 :: us)) as [u'|] eqn:El.
        -- destruct Hp' as (r' & Hr' & ->). exists r'. split; [exact Hr'|].
           apply set_vcs_twice.
        -- rewrite last_cons in El. destruct (last us); discriminate El.
    + rewrite (repository_step_other o p Ht).
      destruct (IH p Hl) as (p' & Hrun & Hp'). exists p'. split; assumption.
Qed.

(** C4, as stated, fails on a list with a [vcs] descriptor whose URL the
    resolver rejects: the mapper raises, the tool assigned and the
    repository not. *)
Lemma repository_mapper_unresolvable_url :
  well_formed_descriptor
    (JObj [("type", JStr "vcs"); ("url", JStr "git@github.com")]) = false
  /\ repository_mapper
       (JList [JObj [("type", JStr "vcs"); ("url", JStr "git@github.com")]])
       PHPComposerPackage
     = (Raise ValueError, set_vcs_tool (Some "git") PHPComposerPackage)
  /\ vcs_repository (set_vcs_tool (Some "git") PHPComposerPackage) = None.
Proof. repeat split; reflexivity. Qed.

(** C4, amended: on a list of well-formed descriptors (each a mapping,
    each of type [vcs] with a text URL that the resolver accepts) the
    repository mapper ends with the tool and the resolved URL of the last
    descriptor of type [vcs], every other attribute as it was; without
    such a descriptor the package is unchanged. *)
Theorem repository_mapper_last_vcs (repos : list json) (p : Package) :
  forallb well_formed_descriptor repos = true ->
  exists p', repository_mapper (JList repos) p = (Ok tt, p')
    /\ match last (omap vcs_url repos) with
       | None => p' = p
       | Some u => exists r, parse_repo_url u = Ok r
                             /\ p' = set_vcs (vcs_tool_of u) r p
       end.
Proof.
  intros Hwf. destruct repos as [|d l].
  - exists p. split; reflexivity.
  - apply (repository_loop (d :: l) p Hwf).
Qed.

Lemma repository_mapper_last_vcs_witness :
  exists p',
    repository_mapper
      (JList [ JObj [("type", JStr "composer"); ("url", JStr "http://packages.example.com")];
               JObj [("type", JStr "vcs"); ("url", JStr "svn://example.org/a")];
               JObj [("type", JStr "vcs"); ("url", JStr "hgrepo/b")];
               JObj [("type", JStr "pear"); ("url", JStr "https://pear2.php.net")] ])
      PHPComposerPackage = (Ok tt, p')
    /\ exists r, parse_repo_url "hgrepo/b" = Ok r
                 /\ p' = set_vcs (vcs_tool_of "hgrepo/b") r PHPComposerPackage.
Proof.
  apply (repository_mapper_last_vcs
           [ JObj [("type", JStr "composer"); ("url", JStr "http://packages.example.com")];
             JObj [("type", JStr "vcs"); ("url", JStr "svn://example.org/a")];
             JObj [("type", JStr "vcs"); ("url", JStr "hgrepo/b")];
             JObj [("type", JStr "pear"); ("url", JStr "https://pear2.php.net")] ]
           PHPComposerPackage).
  reflexivity.
Defined.

(** C10: a list that holds a descriptor of type [vcs] without a [url] key
    makes the repository mapper raise. *)
Theorem repository_mapper_missing_url (repos : list json)
    (o : list (string * json)) (p : Package) :
  In (JObj o) repos ->
  eq_str (dict_get o "type") "vcs" = true ->
  has_key o "url" = false ->
  exists e p', repository_mapper (JList repos) p = (Raise e, p').
Proof.
  intros Hin Ht Hk. apply in_split in Hin as (before & after & ->).
  assert (Hrepos : repository_mapper (JList (before ++ JObj o :: after))
                   = for_each (before ++ JObj o :: after) repository_step).
  { destruct before; reflexivity. }
  rewrite Hrepos. apply for_each_raises. intros q.
  exists AttributeError, q.
  apply repository_step_no_url; [exact Ht | apply dict_get_absent, Hk].
Qed.

Lemma repository_mapper_missing_url_witness :
  exists e p',
    repository_mapper
      (JList [ JObj [("type", JStr "composer"); ("url", JStr "http://packages.example.com")];
               JObj [("type", JStr "vcs")] ])
      PHPComposerPackage = (Raise e, p').
Proof.
  apply (repository_mapper_missing_url _ [("type", JStr "vcs")]).
  - right. left. reflexivity.
  - reflexivity.
  - reflexivity.
Defined.

(** ** The dependency mapper *)

Lemma run_deps_mapper (deps : list (string * json)) (field_name kind : string)
    (p : Package) :
  subscript dep_types field_name = Ok kind ->
  deps_mapper (JObj deps) field_name p =
    (Ok tt,
     set_dependencies
       (<[kind := (existing p kind ++ batch deps)%list]> (dependencies p)) p).
Proof.
  intros Hk. unfold deps_mapper, existing. rewrite Hk. cbn [items]. run.
  unfold modify. fold (batch deps).
  destruct (dependencies p !! kind); reflexivity.
Qed.

(** One call only adds: the kind it maps keeps its entries in front of the
    new batch, every other kind is as it was. *)
Lemma deps_mapper_append_only (deps : list (string * json))
    (field_name kind : string) (p : Package) :
  subscript dep_types field_name = Ok kind ->
  exists p', deps_mapper (JObj deps) field_name p = (Ok tt, p')
    /\ dependencies p' !! kind = Some (existing p kind ++ batch deps)%list
    /\ forall other, other <> kind ->
         dependencies p' !! other = dependencies p !! other.
Proof.
  intros Hk. eexists. split; [apply (run_deps_mapper _ _ _ _ Hk)|].
  cbn [dependencies set_dependencies]. split.
  - apply lookup_insert_eq.
  - intros other Hne. apply lookup_insert_ne. congruence.
Qed.

(** C6: two calls with distinct kinds, in either order, leave both batches
    in the package: each kind holds what it held before, followed by the
    batch mapped for it, and no other kind is touched. *)
Theorem deps_mapper_accumulates (p : Package)
    (deps dev_deps : list (string * json)) :
  (exists p1 p2,
     dependencies_mapper (JObj deps) p = (Ok tt, p1)
     /\ dev_dependencies_mapper (JObj dev_deps) p1 = (Ok tt, p2)
     /\ dependencies p2 !! dep_runtime
          = Some (existing p dep_runtime ++ batch deps)%list
     /\ dependencies p2 !! dep_dev
          = Some (existing p dep_dev ++ batch dev_deps)%list
     /\ forall kind, kind <> dep_runtime -> kind <> dep_dev ->
          dependencies p2 !! kind = dependencies p !! kind)
  /\ (exists p1 p2,
        dev_dependencies_mapper (JObj dev_deps) p = (Ok tt, p1)
        /\ dependencies_mapper (JObj deps) p1 = (Ok tt, p2)
        /\ dependencies p2 !! dep_runtime
             = Some (existing p dep_runtime ++ batch deps)%list
        /\ dependencies p2 !! dep_dev
             = Some (existing p dep_dev ++ batch dev_deps)%list
        /\ forall kind, kind <> dep_runtime -> kind <> dep_dev ->
             dependencies p2 !! kind = dependencies p !! kind).
Proof.
  assert (Hne : dep_dev <> dep_runtime) by discriminate.
  assert (Hne' : dep_runtime <> dep_dev) by discriminate.
  unfold dependencies_mapper, dev_dependencies_mapper. split.
  - destruct (deps_mapper_append_only deps "dependencies" dep_runtime p eq_refl)
      as (p1 & R1 & K1 & O1).
    destruct (deps_mapper_append_only dev_deps "devDependencies" dep_dev p1 eq_refl)
      as (p2 & R2 & K2 & O2).
    exists p1, p2. repeat split; try assumption.
    + rewrite (O2 _ Hne'). exact K1.
    + rewrite K2. unfold existing at 1. rewrite (O1 _ Hne). reflexivity.
    + intros kind H1 H2. rewrite (O2 _ H2). apply (O1 _ H1).
  - destruct (deps_mapper_append_only dev_deps "devDependencies" dep_dev p eq_refl)
      as (p1 & R1 & K1 & O1).
    destruct (deps_mapper_append_only deps "dependencies" dep_runtime p1 eq_refl)
      as (p2 & R2 & K2 & O2).
    exists p1, p2. repeat split; try assumption.
    + rewrite K2. unfold existing at 1. rewrite (O1 _ Hne'). reflexivity.
    + rewrite (O2 _ Hne). exact K1.
    + intros kind H1 H2. rewrite (O2 _ H1). apply (O1 _ H2).
Qed.

(** ** The author mapper *)

(** C7: on a value that is not a list the author mapper raises, yet what it
    raises is [KeyError('person')], from the formatting of the message, and
    the value is not in it. *)
Theorem author_mapper_not_a_list (host : Host) (authors_content : json)
    (p : Package) :
  is_list authors_content = false ->
  author_mapper host authors_content p = (Raise (KeyError "person"), p).
Proof.
  intros H. destruct authors_content; try discriminate H; reflexivity.
Qed.

Lemma author_mapper_not_a_list_witness :
  author_mapper (sample_host None None) (JStr "Jane Doe") PHPComposerPackage
    = (Raise (KeyError "person"), PHPComposerPackage).
Proof. apply author_mapper_not_a_list. reflexivity. Defined.

(** ** The entry point *)

Lemma parse_recognized (host : Host) (location : string) :
  is_phpcomposer_json host location = true ->
  parse host location =
    data ← load host location;
    name ← get data "name";
    if negb (truthy name) then Ok None
    else
      description ← get data "description";
      if negb (truthy description) then Ok None
      else match populate host location data PHPComposerPackage with
           | (Ok _, package) => Ok (Some package)
           | (Raise e, _) => Raise e
           end.
Proof. intros H. unfold parse. rewrite H. reflexivity. Qed.

(** C1: a name made of spaces is empty once trimmed, yet [parse] returns a
    package, its name unset, where the claim asks for [None]: the test on
    [name] and [description] is made on the values as read, while the two
    loops that follow trim a text before they test it, and the comment on
    the test calls a manifest without a name unusable. *)
Lemma parse_blank_name :
  is_phpcomposer_json (sample_host (Some "") (Some blank_name_manifest))
    "/pkg/composer.json" = true
  /\ absent_or_blank (JStr "   ") = true
  /\ exists package,
       parse (sample_host (Some "") (Some blank_name_manifest))
         "/pkg/composer.json" = Ok (Some package)
       /\ name package = JNull.
Proof.
  split; [reflexivity|]. split; [reflexivity|].
  eexists. split; reflexivity.
Qed.

(** X26: for a manifest (a mapping) whose [name] or [description] is
    absent or false for Python as decoded ([None], [false], zero, the empty
    text, list or mapping), [parse] returns [None] and raises nothing,
    whatever the other keys hold. *)
Theorem parse_incomplete_manifest (host : Host) (location : string)
    (data : list (string * json)) :
  is_phpcomposer_json host location = true ->
  load host location = Ok (JObj data) ->
  truthy (dict_get data "name") = false
  \/ truthy (dict_get data "description") = false ->
  parse host location = Ok None.
Proof.
  intros Hrec Hload Hmiss. rewrite (parse_recognized _ _ Hrec), Hload.
  cbn [mbind pyres_bind pybind get].
  destruct (truthy (dict_get data "name")); [|reflexivity].
  destruct Hmiss as [Hn | Hd]; [discriminate Hn|].
  rewrite Hd. reflexivity.
Qed.

Lemma parse_incomplete_manifest_witness :
  parse (sample_host (Some "") (Some (JObj [("name", JStr "acme/tools")])))
    "/pkg/composer.json" = Ok None.
Proof.
  apply (parse_incomplete_manifest _ _ [("name", JStr "acme/tools")]).
  - reflexivity.
  - reflexivity.
  - right. reflexivity.
Defined.

(** C8: when the bytes of a recognized file are not UTF-8 text, or the
    text is not JSON, [parse] raises the exception of the loader. *)
Theorem parse_propagates_decoding_failure (host : Host) (location : string) :
  is_phpcomposer_json host location = true ->
  decode_utf8 host (read_file host location) = None
  \/ (exists text, decode_utf8 host (read_file host location) = Some text
                   /\ json_loads host text = None) ->
  exists e, load host location = Raise e /\ parse host location = Raise e.
Proof.
  intros Hrec Hbad. rewrite (parse_recognized _ _ Hrec). unfold load.
  destruct Hbad as [Hdec | (text & Hdec & Hjson)]; rewrite Hdec.
  - exists UnicodeDecodeError. split; reflexivity.
  - rewrite Hjson. exists ValueError. split; reflexivity.
Qed.

Lemma parse_propagates_decoding_failure_witness :
  (exists e, load (sample_host None None) "/pkg/composer.json" = Raise e
             /\ parse (sample_host None None) "/pkg/composer.json" = Raise e)
  /\ (exists e, load (sample_host (Some "{") None) "/pkg/composer.json" = Raise e
                /\ parse (sample_host (Some "{") None) "/pkg/composer.json" = Raise e).
Proof.
  split.
  - apply (parse_propagates_decoding_failure (sample_host None None)).
    + reflexivity.
    + left. reflexivity.
  - apply (parse_propagates_decoding_failure (sample_host (Some "{") None)).
    + reflexivity.
    + right. exists "{". split; reflexivity.
Defined.

(** The manifest of the specification's end-to-end example. *)
Example parse_end_to_end :
  exists package,
    parse (sample_host (Some "")
             (Some (JObj [ ("name", JStr "x"); ("description", JStr "d");
                           ("license", JStr "MIT");
                           ("authors",
                            JList [JObj [("name", JStr "A");
                                         ("email", JStr "a@b.com")]]) ])))
      "/pkg/composer.json" = Ok (Some package)
    /\ name package = JStr "x" /\ summary package = JStr "d"
    /\ asserted_licenses package = [mkAssertedLicense "MIT"]
    /\ authors package = [mkParty party_person (JStr "A") (JStr "a@b.com") JNull].
Proof. eexists. repeat split; reflexivity. Qed.

(** * Further properties *)

(** ** More on repository URLs *)

Lemma startswith_app (p rest : string) : Str.startswith (p ++ rest) p = true.
Proof.
  induction p as [|a p IH]; [reflexivity|].
  change (String a p ++ rest) with (String a (p ++ rest)).
  cbn [Str.startswith]. rewrite Ascii.eqb_refl. exact IH.
Qed.

Lemma startswith_inv (s p : string) :
  Str.startswith s p = true -> exists rest, s = p ++ rest.
Proof.
  revert s. induction p as [|a p IH]; intros s H.
  - exists s. reflexivity.
  - destruct s as [|b s]; [discriminate H|]. cbn [Str.startswith] in H.
    destruct (Ascii.eqb a b) eqn:E; [|discriminate H].
    apply Ascii.eqb_eq in E. subst b.
    destruct (IH s H) as [rest ->]. exists rest. reflexivity.
Qed.

Lemma cut_app (c : ascii) (s1 s2 : string) :
  Str.cut c s1 = None -> Str.cut c (s1 ++ String c s2) = Some (s1, s2).
Proof.
  induction s1 as [|a s1 IH]; intros H.
  - change ("" ++ String c s2) with (String c s2).
    cbn [Str.cut]. rewrite Ascii.eqb_refl. reflexivity.
  - change (String a s1 ++ String c s2) with (String a (s1 ++ String c s2)).
    cbn [Str.cut] in *. destruct (Ascii.eqb a c); [discriminate H|].
    destruct (Str.cut c s1) as [[l r]|]; [discriminate H|].
    rewrite (IH eq_refl). reflexivity.
Qed.

Lemma parse_repo_url_vcs_url (repo_url : string) :
  Str.startswith_any repo_url VCS_URLS = true -> parse_repo_url repo_url = Ok repo_url.
Proof. intros H. unfold parse_repo_url. rewrite H. reflexivity. Qed.

(** X1: a text that starts with one of the schemes of [VCS_URLS] is
    returned as it is, whatever follows the scheme. *)
Theorem parse_repo_url_full_url (scheme rest : string) :
  In scheme VCS_URLS ->
  parse_repo_url (scheme ++ rest) = Ok (scheme ++ rest).
Proof.
  intros Hin. apply parse_repo_url_vcs_url.
  unfold Str.startswith_any. apply existsb_exists.
  exists scheme. split; [exact Hin | apply startswith_app].
Qed.

Lemma parse_repo_url_full_url_witness :
  parse_repo_url ("svn+https://" ++ "svn.example.org/repo/trunk")
    = Ok ("svn+https://" ++ "svn.example.org/repo/trunk").
Proof.
  apply (parse_repo_url_full_url "svn+https://" "svn.example.org/repo/trunk").
  do 8 right. left. reflexivity.
Defined.

(** X2: the SSH shorthand [git@host:path], the host without a colon,
    becomes [https://host/path] when the host names GitHub, Bitbucket or
    GitLab, and is returned as it is for any other host. *)
Theorem parse_repo_url_ssh (host repo : string) :
  Str.contains ":" host = false ->
  parse_repo_url ("git@" ++ host ++ ":" ++ repo) =
    Ok (if existsb (fun h => Str.contains h host) ["github"; "bitbucket"; "gitlab"]
        then "https://" ++ host ++ "/" ++ repo
        else "git@" ++ host ++ ":" ++ repo).
Proof.
  intros H. apply StrFacts.cut_None_of_not_contains in H.
  change ("git@" ++ host ++ ":" ++ repo)
    with (String "g" (String "i" (String "t" (String "@" (host ++ String ":" repo))))).
  unfold parse_repo_url. simpl. unfold Str.split1.
  rewrite (cut_app _ _ _ H). simpl.
  destruct (Str.contains "github" host || _); reflexivity.
Qed.

Lemma parse_repo_url_ssh_witness :
  parse_repo_url ("git@" ++ "gitlab.com" ++ ":" ++ "foo/private.git")
    = Ok ("https://" ++ "gitlab.com" ++ "/" ++ "foo/private.git").
Proof. apply (parse_repo_url_ssh "gitlab.com" "foo/private.git"). reflexivity. Defined.

(** X3: every text that starts with [bitbucket:], [gitlab:] or [github:]
    raises [KeyError]: the key looked up has lost its colon. *)
Theorem parse_repo_url_hoster_prefix (rest : string) :
  parse_repo_url ("bitbucket:" ++ rest) = Raise (KeyError "bitbucket")
  /\ parse_repo_url ("gitlab:" ++ rest) = Raise (KeyError "gitlab")
  /\ parse_repo_url ("github:" ++ rest) = Raise (KeyError "github").
Proof. repeat split; reflexivity. Qed.

Lemma subscript_hoster_urls (hoster template : string) :
  subscript hoster_urls hoster = Ok template ->
  exists tail, template = "https://" ++ tail.
Proof.
  unfold hoster_urls. cbn [subscript].
  repeat (destruct (String.eqb _ hoster);
          [intros [= <-]; eexists; reflexivity|]).
  discriminate.
Qed.

Lemma unpack2_Ok (pieces : list string) (a b : string) :
  unpack2 pieces = Ok (a, b) -> pieces = [a; b].
Proof.
  destruct pieces as [|x [|y [|z t]]]; try discriminate.
  intros [= <- <-]. reflexivity.
Qed.

Lemma unpack2_Raise (pieces : list string) (e : exn) :
  unpack2 pieces = Raise e -> e = ValueError.
Proof.
  destruct pieces as [|x [|y [|z t]]]; try discriminate;
    intros [= <-]; reflexivity.
Qed.

Lemma split1_at_most_two (c : ascii) (s : string) (e : exn) :
  unpack2 (Str.split1 c s) = Raise e -> Str.cut c s = None.
Proof.
  unfold Str.split1. destruct (Str.cut c s) as [[l r]|]; [discriminate|].
  reflexivity.
Qed.

(** What a resolved URL looks like. *)
Lemma parse_repo_url_Ok_shape (repo_url resolved : string) :
  parse_repo_url repo_url = Ok resolved ->
  resolved = repo_url \/ exists tail, resolved = "https://" ++ tail.
Proof.
  unfold parse_repo_url.
  destruct (Str.startswith_any repo_url VCS_URLS); [intros [= <-]; auto|].
  destruct (Str.startswith repo_url "git@").
  { destruct (unpack2 (Str.split1 "@" repo_url)) as [[l r]|]; [|discriminate].
    cbn [mbind pyres_bind pybind].
    destruct (unpack2 (Str.split1 ":" r)) as [[h p]|]; [|discriminate].
    cbn [mbind pyres_bind pybind].
    destruct (existsb _ _); intros [= <-]; [right; eexists; reflexivity | auto]. }
  destruct (Str.startswith repo_url "gist:"); [intros [= <-]; auto|].
  destruct (Str.startswith_any repo_url _).
  { destruct (unpack2 (Str.split1 ":" repo_url)) as [[h p]|]; [|discriminate].
    cbn [mbind pyres_bind pybind].
    destruct (subscript hoster_urls h) as [t|] eqn:E; [|discriminate].
    cbn [mbind pyres_bind pybind]. intros [= <-].
    destruct (subscript_hoster_urls _ _ E) as [tail ->].
    right. exists (tail ++ p). reflexivity. }
  destruct (_ =? 2)%nat; intros [= <-]; [right; eexists; reflexivity | auto].
Qed.

(** X4: resolving is idempotent: a URL that [parse_repo_url] returned is
    returned unchanged when it is given back to it. *)
Theorem parse_repo_url_idempotent (repo_url resolved : string) :
  parse_repo_url repo_url = Ok resolved ->
  parse_repo_url resolved = Ok resolved.
Proof.
  intros H. destruct (parse_repo_url_Ok_shape _ _ H) as [-> | [tail ->]].
  - exact H.
  - apply parse_repo_url_vcs_url. reflexivity.
Qed.

Lemma parse_repo_url_idempotent_witness :
  parse_repo_url "https://github.com/expressjs/serve-static"
    = Ok "https://github.com/expressjs/serve-static".
Proof.
  apply (parse_repo_url_idempotent "expressjs/serve-static"). reflexivity.
Defined.

(** X5: the only ways [parse_repo_url] fails: [ValueError] on a text that
    starts with [git@] and has no colon after it, [KeyError] on a text
    that starts with a hoster prefix. *)
Theorem parse_repo_url_failures (repo_url : string) (e : exn) :
  parse_repo_url repo_url = Raise e ->
  (e = ValueError /\ exists rest, repo_url = "git@" ++ rest
                                  /\ Str.cut ":" rest = None)
  \/ ((exists key, e = KeyError key)
      /\ Str.startswith_any repo_url ["bitbucket:"; "gitlab:"; "github:"] = true).
Proof.
  unfold parse_repo_url.
  destruct (Str.startswith_any repo_url VCS_URLS); [discriminate|].
  destruct (Str.startswith repo_url "git@") eqn:Hgit.
  { intros H. left.
    destruct (startswith_inv _ _ Hgit) as [rest ->].
    change ("git@" ++ rest)
      with (String "g" (String "i" (String "t" (String "@" rest)))) in *.
    change (Str.split1 "@" (String "g" (String "i" (String "t" (String "@" rest)))))
      with ["git"; rest] in H.
    cbn [unpack2 mbind pyres_bind pybind] in H.
    destruct (unpack2 (Str.split1 ":" rest)) as [[h p]|e'] eqn:E.
    - cbn [mbind pyres_bind pybind] in H. destruct (existsb _ _); discriminate H.
    - cbn [mbind pyres_bind pybind] in H. injection H as <-. split.
      + apply (unpack2_Raise _ _ E).
      + exists rest. split; [reflexivity | apply (split1_at_most_two _ _ _ E)]. }
  destruct (Str.startswith repo_url "gist:"); [discriminate|].
  destruct (Str.startswith_any repo_url _) eqn:Hh.
  { intros H. right. split; [|reflexivity].
    unfold Str.split1 in H. destruct (Str.cut ":" repo_url) as [[h p]|] eqn:E.
    - cbn [unpack2 mbind pyres_bind pybind] in H.
      destruct (subscript hoster_urls h) as [t|e'] eqn:Es.
      + discriminate H.
      + cbn [mbind pyres_bind pybind] in H. injection H as <-.
        revert Es. unfold hoster_urls. cbn [subscript].
        repeat (destruct (String.eqb _ h); [discriminate|]).
        intros [= <-]. eexists. reflexivity.
    - exfalso. clear H. unfold Str.startswith_any in Hh. cbn [existsb] in Hh.
      repeat (apply orb_prop in Hh as [Hh | Hh];
              [apply startswith_inv in Hh as [rest ->]; discriminate E|]).
      discriminate Hh. }
  destruct (_ =? 2)%nat; discriminate.
Qed.

Lemma parse_repo_url_failures_witness :
  (ValueError = ValueError /\ exists rest, "git@example.org" = "git@" ++ rest
                                           /\ Str.cut ":" rest = None)
  \/ ((exists key, ValueError = KeyError key)
      /\ Str.startswith_any "git@example.org" ["bitbucket:"; "gitlab:"; "github:"] = true).
Proof. apply (parse_repo_url_failures "git@example.org" ValueError). reflexivity. Defined.

(** ** What a mapper leaves alone *)

Section Keeps.

Context {A : Type} (f : Package -> A).

Lemma keeps_ret {B : Type} (b : B) : keeps f (mret b : M B).
Proof. intros p. reflexivity. Qed.

Lemma keeps_lift {B : Type} (r : pyres B) : keeps f (lift r).
Proof. intros p. reflexivity. Qed.

Lemma keeps_modify (g : Package -> Package) :
  (forall p, f (g p) = f p) -> keeps f (modify g).
Proof. intros H p. apply H. Qed.

Lemma keeps_bind {B C : Type} (m : M B) (k : B -> M C) :
  keeps f m -> (forall b, keeps f (k b)) -> keeps f (m ≫= k).
Proof.
  intros Hm Hk p. rewrite run_bind. specialize (Hm p).
  destruct (m p) as [[b|e] q]; cbn [snd] in *.
  - rewrite (Hk b q). exact Hm.
  - exact Hm.
Qed.

Lemma keeps_for_each {B : Type} (l : list B) (body : B -> M unit) :
  (forall x, keeps f (body x)) -> keeps f (for_each l body).
Proof.
  intros Hb. induction l as [|x l IH]; cbn [for_each].
  - apply keeps_ret.
  - apply keeps_bind; [apply Hb | intros _; exact IH].
Qed.

End Keeps.

(** Splits a computation into its steps; an assignment is kept apart by a
    hypothesis of the context. *)
Ltac keeps_steps :=
  repeat first
    [ apply keeps_ret | apply keeps_lift
    | apply keeps_modify; intros ?; solve [auto]
    | apply keeps_bind; [|intros ?]
    | apply keeps_for_each; intros ?
    | lazymatch goal with
      | |- keeps _ (if ?b then _ else _) => destruct b
      end ].

Section MapperKeeps.

Context {A : Type} (f : Package -> A) (host : Host).

Lemma author_mapper_keeps (authors_content : json) :
  (forall v p, f (set_authors v p) = f p) ->
  keeps f (author_mapper host authors_content).
Proof. intros H. unfold author_mapper. keeps_steps. Qed.

Lemma licensing_mapper_keeps (licenses : json) :
  (forall v p, f (set_asserted_licenses v p) = f p) ->
  keeps f (licensing_mapper host licenses).
Proof.
  intros H. unfold licensing_mapper, append_license. keeps_steps.
  destruct licenses; keeps_steps. destruct x; keeps_steps.
Qed.

Lemma deps_mapper_keeps (deps : json) (field_name : string) :
  (forall v p, f (set_dependencies v p) = f p) ->
  keeps f (deps_mapper deps field_name).
Proof.
  intros H. unfold deps_mapper. keeps_steps.
  apply keeps_modify. intros p. destruct (dependencies p !! _); apply H.
Qed.

Lemma repository_mapper_keeps (repos : json) :
  (forall v p, f (set_vcs_tool v p) = f p) ->
  (forall v p, f (set_vcs_repository v p) = f p) ->
  keeps f (repository_mapper repos).
Proof.
  intros Ht Hr. unfold repository_mapper. keeps_steps.
  destruct repos; keeps_steps.
Qed.

Lemma support_mapper_keeps (support : json) :
  (forall v p, f (set_support_contacts v p) = f p) ->
  (forall v p, f (set_bug_tracking_url v p) = f p) ->
  (forall v p, f (set_code_view_url v p) = f p) ->
  keeps f (support_mapper support).
Proof. intros Hc Hb Hv. unfold support_mapper. keeps_steps. Qed.

End MapperKeeps.

(** X6: each mapper changes the attributes it is written for and no
    other, whether it returns or raises: with those attributes erased, the
    package after the call is the package before it. *)
Theorem mapper_footprints (host : Host) (v : json) :
  keeps (set_authors []) (author_mapper host v)
  /\ keeps (set_asserted_licenses []) (licensing_mapper host v)
  /\ (forall field_name, keeps (set_dependencies ∅) (deps_mapper v field_name))
  /\ keeps (fun p => set_vcs_tool None (set_vcs_repository None p))
       (repository_mapper v)
  /\ keeps (fun p => set_support_contacts []
                       (set_bug_tracking_url JNull (set_code_view_url JNull p)))
       (support_mapper v).
Proof.
  split; [apply author_mapper_keeps; reflexivity|].
  split; [apply licensing_mapper_keeps; reflexivity|].
  split; [intros field_name; apply deps_mapper_keeps; reflexivity|].
  split; [apply repository_mapper_keeps; reflexivity|].
  apply support_mapper_keeps; reflexivity.
Qed.

(** ** More on the author mapper *)

Lemma run_author_mapper (host : Host) (authors_content : json) (p : Package) :
  author_mapper host authors_content p =
    match parse_person host authors_content with
    | Ok persons => (Ok tt, set_authors (map party_of_tuple persons) p)
    | Raise e => (Raise e, p)
    end.
Proof.
  unfold author_mapper. rewrite run_bind. unfold lift.
  destruct (parse_person host authors_content); reflexivity.
Qed.

Lemma and_strip_strippable (drop : ascii -> bool) (v : json) :
  strippable v = true -> and_strip drop v = Ok (stripped drop v).
Proof.
  unfold and_strip. destruct v as [| | | |s| |]; cbn [strippable stripped];
    try (intros H; apply negb_true_iff in H; rewrite H; reflexivity).
  intros _. cbn [truthy]. destruct (String.eqb s "") eqn:E; [|reflexivity].
  apply String.eqb_eq in E. subst s. reflexivity.
Qed.

Lemma and_strip_not_strippable (drop : ascii -> bool) (v : json) :
  strippable v = false -> and_strip drop v = Raise AttributeError.
Proof.
  unfold and_strip. destruct v as [| | | |s| |]; cbn [strippable];
    try discriminate;
    intros H; apply negb_false_iff in H; rewrite H; reflexivity.
Qed.

Lemma and_strip_Raise (drop : ascii -> bool) (v : json) (e : exn) :
  and_strip drop v = Raise e -> e = AttributeError.
Proof.
  unfold and_strip. destruct (truthy v); [|discriminate].
  destruct v; try discriminate; intros [= <-]; reflexivity.
Qed.

Lemma person_tuple_simple (person : json) :
  simple_person person = true ->
  exists t, person_tuple person = Ok t /\ party_of_tuple t = party_of person.
Proof.
  destruct person as [| | | | | |o]; try discriminate.
  cbn [simple_person]. intros H.
  apply andb_prop in H as [H Hu]. apply andb_prop in H as [Hn He].
  unfold person_tuple. cbn [get mbind pyres_bind pybind].
  rewrite (and_strip_strippable _ _ Hn), (and_strip_strippable _ _ He),
    (and_strip_strippable _ _ Hu).
  eexists. split; reflexivity.
Qed.

Lemma person_tuple_not_simple (person : json) :
  simple_person person = false -> person_tuple person = Raise AttributeError.
Proof.
  destruct person as [| | | | | |o]; try reflexivity.
  cbn [simple_person]. intros H.
  unfold person_tuple. cbn [get mbind pyres_bind pybind].
  destruct (strippable (dict_get o "name")) eqn:Hn.
  - rewrite (and_strip_strippable _ _ Hn). cbn [pybind].
    destruct (strippable (dict_get o "email")) eqn:He.
    + rewrite (and_strip_strippable _ _ He). cbn [pybind].
      cbn [andb] in H. rewrite (and_strip_not_strippable _ _ H). reflexivity.
    + rewrite (and_strip_not_strippable _ _ He). reflexivity.
  - rewrite (and_strip_not_strippable _ _ Hn). reflexivity.
Qed.

Lemma traverse_all_Ok {A B : Type} (f : A -> pyres B) (g : A -> B) (l : list A) :
  (forall x, In x l -> f x = Ok (g x)) -> traverse f l = Ok (map g l).
Proof.
  induction l as [|x l IH]; intros H; [reflexivity|].
  cbn [traverse mbind pyres_bind pybind]. rewrite (H x (or_introl eq_refl)).
  cbn [pybind]. rewrite IH; [reflexivity|].
  intros y Hy. apply H. right. exact Hy.
Qed.

Lemma traverse_Raise {A B : Type} (f : A -> pyres B) (l : list A) (x : A) (E : exn) :
  (forall y e, f y = Raise e -> e = E) ->
  In x l -> f x = Raise E -> traverse f l = Raise E.
Proof.
  intros Hall. induction l as [|y l IH]; intros Hin Hx; [destruct Hin|].
  cbn [traverse mbind pyres_bind pybind].
  destruct (f y) as [b|e] eqn:Ey; cbn [pybind].
  - destruct Hin as [-> | Hin]; [congruence|].
    rewrite (IH Hin Hx). reflexivity.
  - rewrite (Hall _ _ Ey). reflexivity.
Qed.

Lemma person_tuple_Raise (person : json) (e : exn) :
  person_tuple person = Raise e -> e = AttributeError.
Proof.
  destruct (simple_person person) eqn:H.
  - destruct (person_tuple_simple _ H) as (t & -> & _). discriminate.
  - rewrite (person_tuple_not_simple _ H). intros [= <-]. reflexivity.
Qed.

(** X7: the author mapper is all or nothing: when it raises, the package
    is exactly as it was. *)
Theorem author_mapper_atomic (host : Host) (authors_content : json)
    (p p' : Package) (e : exn) :
  author_mapper host authors_content p = (Raise e, p') -> p' = p.
Proof.
  rewrite run_author_mapper.
  destruct (parse_person host authors_content); [discriminate|].
  intros [= _ <-]. reflexivity.
Qed.

Lemma author_mapper_atomic_witness :
  set_authors [mkParty party_person (JStr "A") JNull JNull] PHPComposerPackage
  = set_authors [mkParty party_person (JStr "A") JNull JNull] PHPComposerPackage.
Proof.
  apply (author_mapper_atomic (sample_host None None)
           (JList [JObj [("name", JStr "B")]; JStr "C"]) _ _ AttributeError).
  reflexivity.
Defined.

(** X8: on a list of persons that are mappings with text, false or
    absent [name], [email] and [homepage], the author mapper succeeds and
    the package holds one party per person, in order, each text stripped
    (white space for the name, [<> ] for the email, [() ] for the URL) and
    each absent field [None]; the authors held before are dropped. *)
Theorem author_mapper_simple_persons (host : Host) (persons : list json)
    (p : Package) :
  forallb simple_person persons = true ->
  author_mapper host (JList persons) p
    = (Ok tt, set_authors (map party_of persons) p).
Proof.
  intros H. rewrite run_author_mapper. cbn [parse_person].
  assert (Hall : forall x, In x persons ->
            person_tuple x = Ok (match person_tuple x with
                                 | Ok t => t
                                 | Raise _ => (JNull, JNull, JNull)
                                 end)
            /\ party_of_tuple (match person_tuple x with
                               | Ok t => t
                               | Raise _ => (JNull, JNull, JNull)
                               end) = party_of x).
  { intros x Hx. rewrite forallb_forall in H.
    destruct (person_tuple_simple x (H x Hx)) as (t & -> & Ht). split; auto. }
  rewrite (traverse_all_Ok _ _ persons (fun x Hx => proj1 (Hall x Hx))).
  rewrite map_map. f_equal. f_equal.
  apply map_ext_in. intros x Hx. apply (proj2 (Hall x Hx)).
Qed.

Lemma author_mapper_simple_persons_witness :
  author_mapper (sample_host None None)
    (JList [ JObj [("name", JStr " Nils Adermann "); ("email", JStr "<naderman@naderman.de>");
                   ("homepage", JStr "(http://www.naderman.de)"); ("role", JStr "Developer")];
             JObj [("name", JStr "Jordi Boggiano")] ])
    PHPComposerPackage
  = (Ok tt,
     set_authors
       (map party_of
          [ JObj [("name", JStr " Nils Adermann "); ("email", JStr "<naderman@naderman.de>");
                  ("homepage", JStr "(http://www.naderman.de)"); ("role", JStr "Developer")];
            JObj [("name", JStr "Jordi Boggiano")] ])
       PHPComposerPackage).
Proof. apply author_mapper_simple_persons. reflexivity. Defined.

Example party_of_example :
  party_of (JObj [("name", JStr " Nils Adermann "); ("email", JStr "<naderman@naderman.de>");
                  ("homepage", JStr "(http://www.naderman.de)")])
  = mkParty party_person (JStr "Nils Adermann") (JStr "naderman@naderman.de")
      (JStr "http://www.naderman.de").
Proof. reflexivity. Qed.

(** X9: a list that holds an entry which is not a mapping, or whose
    [name], [email] or [homepage] is a true value other than a text,
    makes the author mapper raise [AttributeError] and leaves the package
    as it was. *)
Theorem author_mapper_bad_person (host : Host) (persons : list json)
    (person : json) (p : Package) :
  In person persons ->
  simple_person person = false ->
  author_mapper host (JList persons) p = (Raise AttributeError, p).
Proof.
  intros Hin Hbad. rewrite run_author_mapper. cbn [parse_person].
  rewrite (traverse_Raise person_tuple persons person AttributeError
             person_tuple_Raise Hin (person_tuple_not_simple _ Hbad)).
  reflexivity.
Qed.

Lemma author_mapper_bad_person_witness :
  author_mapper (sample_host None None)
    (JList [JObj [("name", JStr "A")]; JObj [("name", JInt 7)]])
    PHPComposerPackage
  = (Raise AttributeError, PHPComposerPackage).
Proof.
  apply (author_mapper_bad_person _ _ (JObj [("name", JInt 7)])).
  - right. left. reflexivity.
  - reflexivity.
Defined.

(** X10: the author mapper replaces: a call that succeeds after another
    leaves what it would have left without the other. *)
Theorem author_mapper_replaces (host : Host) (first second : json)
    (p p1 p2 : Package) :
  author_mapper host first p = (Ok tt, p1) ->
  author_mapper host second p = (Ok tt, p2) ->
  author_mapper host second p1 = (Ok tt, p2).
Proof.
  rewrite !run_author_mapper.
  destruct (parse_person host first); [|discriminate].
  destruct (parse_person host second); [|discriminate].
  intros [= <-] [= <-]. reflexivity.
Qed.

Lemma author_mapper_replaces_witness :
  author_mapper (sample_host None None) (JList [JObj [("name", JStr "B")]])
    (set_authors [mkParty party_person (JStr "A") JNull JNull] PHPComposerPackage)
  = (Ok tt, set_authors [mkParty party_person (JStr "B") JNull JNull] PHPComposerPackage).
Proof.
  apply (author_mapper_replaces _ (JList [JObj [("name", JStr "A")]]) _ PHPComposerPackage);
    reflexivity.
Defined.

(** ** More on the license mapper *)

Lemma run_licensing_mapper (host : Host) (licenses : json) (p : Package) :
  licensing_mapper host licenses p
    = (Ok tt, with_licenses (appended_texts host licenses) p).
Proof.
  unfold licensing_mapper, appended_texts.
  destruct (truthy licenses) eqn:T; cbn [negb].
  - destruct licenses; try apply run_append_license. apply licensing_loop.
  - rewrite with_licenses_nil. reflexivity.
Qed.

Lemma license_texts_strings (host : Host) (texts : list string) :
  license_texts host (JList (map JStr texts)) = texts.
Proof.
  cbn [license_texts]. induction texts as [|t texts IH]; [reflexivity|].
  cbn [map flat_map app]. rewrite IH. reflexivity.
Qed.

(** X11: on a list of texts the license mapper appends the texts, one
    assertion each, in the order of the list. *)
Theorem licensing_mapper_strings (host : Host) (texts : list string)
    (p : Package) :
  licensing_mapper host (JList (map JStr texts)) p
    = (Ok tt, with_licenses texts p).
Proof.
  rewrite run_licensing_mapper. unfold appended_texts.
  destruct texts as [|t texts]; [reflexivity|].
  cbn [truthy map]. change (JStr t :: map JStr texts) with (map JStr (t :: texts)).
  rewrite license_texts_strings. reflexivity.
Qed.

(** X12: licenses accumulate: after two calls the package holds what it
    held before, then what the first call appends, then what the second
    appends. *)
Theorem licensing_mapper_twice (host : Host) (first second : json)
    (p : Package) :
  licensing_mapper host second (snd (licensing_mapper host first p))
    = (Ok tt,
       with_licenses (appended_texts host first ++ appended_texts host second) p).
Proof.
  rewrite !run_licensing_mapper. cbn [snd].
  rewrite with_licenses_app. reflexivity.
Qed.

Lemma appended_texts_bound (host : Host) (licenses : json) :
  length (appended_texts host licenses)
  <= match licenses with JList l => length l | _ => 1 end.
Proof.
  unfold appended_texts. destruct (truthy licenses); [|destruct licenses; cbn; lia].
  destruct licenses as [| | | | |l|]; cbn [license_texts length]; try lia.
  induction l as [|lic l IH]; cbn [flat_map length]; [lia|].
  rewrite length_app.
  assert (length (match lic with
                  | JStr s => [s]
                  | _ => if truthy lic then [repr host lic] else []
                  end) <= 1).
  { destruct lic; try (destruct (truthy _)); cbn; lia. }
  lia.
Qed.

(** X13: a call of the license mapper keeps the assertions the package
    holds, in front, and appends at most one assertion per element of a
    list, at most one for any other value. *)
Theorem licensing_mapper_bound (host : Host) (licenses : json) (p : Package) :
  exists appended,
    asserted_licenses (snd (licensing_mapper host licenses p))
      = (asserted_licenses p ++ appended)%list
    /\ length appended
       <= match licenses with JList l => length l | _ => 1 end.
Proof.
  exists (map mkAssertedLicense (appended_texts host licenses)). split.
  - rewrite run_licensing_mapper. reflexivity.
  - rewrite length_map. apply appended_texts_bound.
Qed.

(** ** More on the dependency mapper *)

(** X14: the dependency mapper raises [KeyError] for a field name other
    than [dependencies] and [devDependencies], and, for these two,
    [AttributeError] when the value is not a mapping; in both cases the
    package is as it was. *)
Theorem deps_mapper_failures (deps : json) (field_name : string) (p : Package) :
  (field_name <> "dependencies" -> field_name <> "devDependencies" ->
   deps_mapper deps field_name p = (Raise (KeyError field_name), p))
  /\ (is_dict deps = false ->
      dependencies_mapper deps p = (Raise AttributeError, p)
      /\ dev_dependencies_mapper deps p = (Raise AttributeError, p)).
Proof.
  split.
  - intros H1 H2. unfold deps_mapper, dep_types. cbn [subscript].
    destruct (String.eqb_spec "dependencies" field_name); [congruence|].
    destruct (String.eqb_spec "devDependencies" field_name); [congruence|].
    reflexivity.
  - intros H. destruct deps; try discriminate H; split; reflexivity.
Qed.

(** X15: two calls for the same kind leave, after what the kind held, the
    batch of the first followed by the batch of the second. *)
Theorem deps_mapper_same_kind (deps1 deps2 : list (string * json))
    (field_name kind : string) (p : Package) :
  subscript dep_types field_name = Ok kind ->
  exists p1 p2,
    deps_mapper (JObj deps1) field_name p = (Ok tt, p1)
    /\ deps_mapper (JObj deps2) field_name p1 = (Ok tt, p2)
    /\ dependencies p2 !! kind
         = Some (existing p kind ++ batch deps1 ++ batch deps2)%list
    /\ forall other, other <> kind ->
         dependencies p2 !! other = dependencies p !! other.
Proof.
  intros Hk.
  destruct (deps_mapper_append_only deps1 field_name kind p Hk)
    as (p1 & R1 & K1 & O1).
  destruct (deps_mapper_append_only deps2 field_name kind p1 Hk)
    as (p2 & R2 & K2 & O2).
  exists p1, p2. repeat split; try assumption.
  - rewrite K2. unfold existing at 1. rewrite K1. cbn.
    rewrite <- app_assoc. reflexivity.
  - intros other Hne. rewrite (O2 _ Hne). apply (O1 _ Hne).
Qed.

Lemma deps_mapper_same_kind_witness :
  exists p1 p2,
    deps_mapper (JObj [("a/a", JStr "^1.0")]) "dependencies" PHPComposerPackage
      = (Ok tt, p1)
    /\ deps_mapper (JObj [("b/b", JStr "^2.0")]) "dependencies" p1 = (Ok tt, p2)
    /\ dependencies p2 !! dep_runtime
         = Some (existing PHPComposerPackage dep_runtime
                 ++ batch [("a/a", JStr "^1.0")] ++ batch [("b/b", JStr "^2.0")])%list
    /\ forall other, other <> dep_runtime ->
         dependencies p2 !! other = dependencies PHPComposerPackage !! other.
Proof. apply deps_mapper_same_kind. reflexivity. Defined.

(** ** The support mapper *)

(** X16: the support mapper replaces: after two calls on mappings the
    package is what the second call alone would have left, its contacts
    the one-element list of the second [email] value, [None] when that key
    is absent. *)
Theorem support_mapper_replaces (first second : list (string * json))
    (p : Package) :
  support_mapper (JObj second) (snd (support_mapper (JObj first) p))
    = support_mapper (JObj second) p
  /\ support_contacts (snd (support_mapper (JObj second) p))
       = [dict_get second "email"].
Proof. split; reflexivity. Qed.

Lemma deps_mapper_failures_witness :
  deps_mapper (JObj []) "require" PHPComposerPackage
    = (Raise (KeyError "require"), PHPComposerPackage)
  /\ dependencies_mapper (JList [JStr "a/a"]) PHPComposerPackage
       = (Raise AttributeError, PHPComposerPackage).
Proof.
  split.
  - apply (deps_mapper_failures (JObj []) "require"); discriminate.
  - apply (deps_mapper_failures (JList [JStr "a/a"]) "dependencies").
    reflexivity.
Defined.

(** ** More on the repository mapper *)

Lemma run_for_each_app {A : Type} (l1 l2 : list A) (body : A -> M unit)
    (p : Package) :
  for_each (l1 ++ l2) body p =
    match for_each l1 body p with
    | (Ok _, p') => for_each l2 body p'
    | (Raise e, p') => (Raise e, p')
    end.
Proof.
  revert p. induction l1 as [|x l1 IH]; intros p; [reflexivity|].
  cbn [app]. rewrite !run_for_each_cons.
  destruct (body x p) as [[[]|e] q]; [apply IH | reflexivity].
Qed.

Lemma repository_mapper_list (repos : list json) :
  repository_mapper (JList repos) = for_each repos repository_step.
Proof. destruct repos; reflexivity. Qed.

Lemma repository_step_unresolved (o : list (string * json)) (u : string)
    (e : exn) (p : Package) :
  eq_str (dict_get o "type") "vcs" = true ->
  dict_get o "url" = JStr u ->
  parse_repo_url u = Raise e ->
  repository_step (JObj o) p = (Raise e, set_vcs_tool (Some (vcs_tool_of u)) p).
Proof.
  intros Ht Hu Hr. unfold repository_step, vcs_tool_of. cbn [get].
  run. rewrite Ht, Hu. run. cbn [startswith parse_repo_url_of]. run.
  destruct (Str.startswith u "svn"); [|run; destruct (Str.startswith u "hg")];
    [| |run; destruct (Str.startswith u "cvs")];
    run; cbn [parse_repo_url_of]; rewrite Hr; run; reflexivity.
Qed.

(** X17: when the URL of a [vcs] descriptor cannot be resolved, the
    repository mapper raises the resolver's exception after it has
    assigned the tool: the package keeps what the descriptors before left,
    with the tool of the failing one, and the descriptors after it are not
    looked at. *)
Theorem repository_mapper_unresolved (before after : list json)
    (o : list (string * json)) (u : string) (e : exn) (p : Package) :
  forallb well_formed_descriptor before = true ->
  eq_str (dict_get o "type") "vcs" = true ->
  dict_get o "url" = JStr u ->
  parse_repo_url u = Raise e ->
  repository_mapper (JList (before ++ JObj o :: after)) p
    = (Raise e,
       set_vcs_tool (Some (vcs_tool_of u))
         (snd (repository_mapper (JList before) p))).
Proof.
  intros Hwf Ht Hu Hr. rewrite !repository_mapper_list, run_for_each_app.
  destruct (repository_loop before p Hwf) as (p' & -> & _). cbn [snd].
  rewrite run_for_each_cons, (repository_step_unresolved o u e p' Ht Hu Hr).
  reflexivity.
Qed.

Lemma repository_mapper_unresolved_witness :
  repository_mapper
    (JList ([JObj [("type", JStr "vcs"); ("url", JStr "svn://example.org/a")]]
            ++ JObj [("type", JStr "vcs"); ("url", JStr "github:foo/bar")]
               :: [JObj [("type", JStr "vcs"); ("url", JStr "hg+https://example.org/c")]]))
    PHPComposerPackage
  = (Raise (KeyError "github"),
     set_vcs_tool (Some (vcs_tool_of "github:foo/bar"))
       (snd (repository_mapper
               (JList [JObj [("type", JStr "vcs"); ("url", JStr "svn://example.org/a")]])
               PHPComposerPackage))).
Proof. apply repository_mapper_unresolved; reflexivity. Defined.

Lemma repository_step_vcs_tool (repo : json) (p : Package) :
  vcs_tool (snd (repository_step repo p)) = vcs_tool p
  \/ In (vcs_tool (snd (repository_step repo p))) vcs_tools.
Proof.
  destruct repo as [| | | | | |o]; try (left; reflexivity).
  destruct (eq_str (dict_get o "type") "vcs") eqn:Ht.
  - destruct (dict_get o "url") as [| | | |u| |] eqn:Hu;
      try (left; unfold repository_step; cbn [get]; run; rewrite Ht, Hu; run;
           reflexivity).
    right. assert (Htool : In (Some (vcs_tool_of u)) vcs_tools).
    { unfold vcs_tool_of, vcs_tools.
      destruct (Str.startswith u "svn"); [cbn; tauto|].
      destruct (Str.startswith u "hg"); [cbn; tauto|].
      destruct (Str.startswith u "cvs"); cbn; tauto. }
    destruct (parse_repo_url u) as [r|e] eqn:Hr.
    + rewrite (repository_step_vcs o u r p Ht Hu Hr). exact Htool.
    + rewrite (repository_step_unresolved o u e p Ht Hu Hr). exact Htool.
  - rewrite (repository_step_other o p Ht). left. reflexivity.
Qed.

(** X18: whatever the value and whether the mapper returns or raises,
    [vcs_tool] afterwards is what it was or one of [svn], [hg], [cvs] and
    [git]. *)
Theorem repository_mapper_vcs_tool (repos : json) (p : Package) :
  vcs_tool (snd (repository_mapper repos p)) = vcs_tool p
  \/ In (vcs_tool (snd (repository_mapper repos p))) vcs_tools.
Proof.
  unfold repository_mapper. destruct (truthy repos); [|left; reflexivity].
  cbn [negb]. destruct repos as [| | | |s|l|]; try (left; reflexivity).
  - left. rewrite run_bind. unfold lift.
    destruct (parse_repo_url s); reflexivity.
  - revert p. induction l as [|d l IH]; intros p; [left; reflexivity|].
    rewrite run_for_each_cons.
    pose proof (repository_step_vcs_tool d p) as Hd.
    destruct (repository_step d p) as [[[]|e] q]; cbn [snd] in *.
    + destruct (IH q) as [H | H]; [rewrite H; exact Hd | right; exact H].
    + exact Hd.
Qed.

(** X19: a [repositories] value that is neither a text nor a list (a
    mapping, a number, a truth value, [None]) is ignored: nothing is
    raised and the package is as it was. *)
Theorem repository_mapper_other_shapes (repos : json) (p : Package) :
  is_basestring_or_list repos = false ->
  repository_mapper repos p = (Ok tt, p).
Proof.
  intros H. unfold repository_mapper.
  destruct repos; try discriminate H; destruct (truthy _); reflexivity.
Qed.

Lemma repository_mapper_other_shapes_witness :
  repository_mapper
    (JObj [("packagist", JObj [("type", JStr "vcs"); ("url", JStr "a/b")])])
    PHPComposerPackage
  = (Ok tt, PHPComposerPackage).
Proof. apply repository_mapper_other_shapes. reflexivity. Defined.

(** ** More on the entry point *)

Lemma truthy_strip_if_basestring (v : json) :
  truthy v = false -> truthy (strip_if_basestring v) = false.
Proof.
  destruct v as [| | | |s| |]; try (intros H; exact H).
  cbn [truthy]. intros H. apply negb_false_iff, String.eqb_eq in H.
  subst s. reflexivity.
Qed.

Lemma run_plain_round (o : list (string * json)) (source target : string)
    (p : Package) :
  (value ← lift (get (JObj o) source);
   if truthy value then
     let value := strip_if_basestring value in
     if truthy value then modify (setattr target value) else mret tt
   else mret tt) p
  = (Ok tt, plain_step target (dict_get o source) p).
Proof.
  cbn [get]. run. unfold plain_step.
  destruct (truthy (dict_get o source)) eqn:T.
  - cbv zeta. destruct (truthy (strip_if_basestring _)); reflexivity.
  - rewrite (truthy_strip_if_basestring _ T). reflexivity.
Qed.

Lemma run_mapper_round (o : list (string * json)) (source : string)
    (func : json -> M unit) (p : Package) :
  (value ← lift (get (JObj o) source);
   if truthy value then
     let value := strip_if_basestring value in
     if truthy value then func value else mret tt
   else mret tt) p
  = call_mapper o (source, func) p.
Proof.
  cbn [get]. run. unfold call_mapper, mapper_argument. cbn [fst snd].
  destruct (truthy (dict_get o source)) eqn:T.
  - cbv zeta. destruct (truthy (strip_if_basestring _)); reflexivity.
  - rewrite (truthy_strip_if_basestring _ T). reflexivity.
Qed.

Lemma for_each_ext {A : Type} (l : list A) (body1 body2 : A -> M unit)
    (p : Package) :
  (forall x q, body1 x q = body2 x q) ->
  for_each l body1 p = for_each l body2 p.
Proof.
  intros H. revert p. induction l as [|x l IH]; intros p; [reflexivity|].
  rewrite !run_for_each_cons, H.
  destruct (body2 x p) as [[[]|e] q]; [apply IH | reflexivity].
Qed.

Lemma run_populate (host : Host) (location : string) (o : list (string * json))
    (p : Package) :
  populate host location (JObj o) p
  = for_each (field_mappers host) (call_mapper o)
      (with_plain_fields host location o p).
Proof.
  unfold populate. rewrite !run_modify. cbn [get].
  rewrite run_lift_ok, run_modify, run_bind.
  assert (Hplain : forall fields q,
            for_each fields (fun '(source, target) =>
              value ← lift (get (JObj o) source);
              if truthy value then
                let value := strip_if_basestring value in
                if truthy value then modify (setattr target value) else mret tt
              else mret tt) q
            = (Ok tt,
               fold_left (fun q '(source, target) =>
                            plain_step target (dict_get o source) q) fields q)).
  { induction fields as [|[source target] fields IH]; intros q; [reflexivity|].
    rewrite run_for_each_cons, run_plain_round. apply IH. }
  rewrite Hplain. fold (with_plain_fields host location o p).
  apply for_each_ext. intros [source func] q. apply run_mapper_round.
Qed.

(** [parse] on a recognized file that holds a mapping. *)
Lemma run_parse (host : Host) (location : string) (o : list (string * json)) :
  is_phpcomposer_json host location = true ->
  load host location = Ok (JObj o) ->
  parse host location =
    if truthy (dict_get o "name") && truthy (dict_get o "description") then
      match for_each (field_mappers host) (call_mapper o)
              (with_plain_fields host location o PHPComposerPackage) with
      | (Ok _, package) => Ok (Some package)
      | (Raise e, _) => Raise e
      end
    else Ok None.
Proof.
  intros Hrec Hload. rewrite (parse_recognized _ _ Hrec), Hload.
  cbn [mbind pyres_bind pybind get].
  destruct (truthy (dict_get o "name")); [|reflexivity].
  destruct (truthy (dict_get o "description")); [|reflexivity].
  cbn [negb andb]. rewrite run_populate. reflexivity.
Qed.

(** X20: a recognized file whose JSON value is not a mapping (a list, a
    text, a number) makes [parse] raise [AttributeError]. *)
Theorem parse_not_a_mapping (host : Host) (location : string) (data : json) :
  is_phpcomposer_json host location = true ->
  load host location = Ok data ->
  is_dict data = false ->
  parse host location = Raise AttributeError.
Proof.
  intros Hrec Hload Hd. rewrite (parse_recognized _ _ Hrec), Hload.
  destruct data; try discriminate Hd; reflexivity.
Qed.

Lemma parse_not_a_mapping_witness :
  parse (sample_host (Some "[]") (Some (JList []))) "/pkg/composer.json"
    = Raise AttributeError.
Proof. apply (parse_not_a_mapping _ _ (JList [])); reflexivity. Defined.

Lemma parse_Some_inv (host : Host) (location : string)
    (o : list (string * json)) (package : Package) :
  is_phpcomposer_json host location = true ->
  load host location = Ok (JObj o) ->
  parse host location = Ok (Some package) ->
  for_each (field_mappers host) (call_mapper o)
    (with_plain_fields host location o PHPComposerPackage) = (Ok tt, package).
Proof.
  intros Hrec Hload. rewrite (run_parse _ _ _ Hrec Hload).
  destruct (_ && _); [|discriminate].
  destruct (for_each _ _ _) as [[[]|e] q]; [|discriminate].
  intros [= <-]. reflexivity.
Qed.

Lemma keeps_for_each_In {A B : Type} (f : Package -> A) (l : list B)
    (body : B -> M unit) :
  (forall x, In x l -> keeps f (body x)) -> keeps f (for_each l body).
Proof.
  induction l as [|x l IH]; intros H; cbn [for_each].
  - apply keeps_ret.
  - apply keeps_bind; [apply H; left; reflexivity|].
    intros _. apply IH. intros y Hy. apply H. right. exact Hy.
Qed.

Lemma for_each_Ok_inv {A : Type} (before after : list A) (x : A)
    (body : A -> M unit) (p pf : Package) :
  for_each (before ++ x :: after) body p = (Ok tt, pf) ->
  exists p1 p2, for_each before body p = (Ok tt, p1)
                /\ body x p1 = (Ok tt, p2)
                /\ for_each after body p2 = (Ok tt, pf).
Proof.
  rewrite run_for_each_app.
  destruct (for_each before body p) as [[[]|e] p1] eqn:E1; [|discriminate].
  rewrite run_for_each_cons.
  destruct (body x p1) as [[[]|e] p2] eqn:E2; [|discriminate].
  intros H. exists p1, p2. auto.
Qed.

Lemma call_mapper_keeps {A : Type} (f : Package -> A) (o : list (string * json))
    (source : string) (func : json -> M unit) :
  (forall v, keeps f (func v)) -> keeps f (call_mapper o (source, func)).
Proof.
  intros H. unfold call_mapper. cbn [fst snd].
  destruct (mapper_argument _); [apply H | apply keeps_ret].
Qed.

Section PlainKeeps.

Context {A : Type} (f : Package -> A).
Hypothesis Hlocation : forall v p, f (set_location v p) = f p.
Hypothesis Hmetafile : forall v p, f (set_metafile_locations v p) = f p.
Hypothesis Hname : forall v p, f (set_name v p) = f p.
Hypothesis Hsummary : forall v p, f (set_summary v p) = f p.
Hypothesis Hkeywords : forall v p, f (set_keywords v p) = f p.
Hypothesis Hversion : forall v p, f (set_version v p) = f p.
Hypothesis Hhomepage : forall v p, f (set_homepage_url v p) = f p.

Lemma plain_step_keeps (target : string) (v : json) (p : Package) :
  f (plain_step target v p) = f p.
Proof.
  unfold plain_step, setattr. cbv zeta. destruct (truthy _); [|reflexivity].
  repeat (destruct (String.eqb target _); [auto|]). reflexivity.
Qed.

Lemma with_plain_fields_keeps (host : Host) (location : string)
    (o : list (string * json)) (p : Package) :
  f (with_plain_fields host location o p) = f p.
Proof.
  unfold with_plain_fields, plain_fields. cbn [fold_left].
  rewrite !plain_step_keeps, Hversion, Hmetafile, Hlocation. reflexivity.
Qed.

End PlainKeeps.

Section LoopKeeps.

Context {A : Type} (f : Package -> A) (host : Host).
Hypothesis Hauthors : forall v p, f (set_authors v p) = f p.
Hypothesis Hlicenses : forall v p, f (set_asserted_licenses v p) = f p.
Hypothesis Hdependencies : forall v p, f (set_dependencies v p) = f p.
Hypothesis Htool : forall v p, f (set_vcs_tool v p) = f p.
Hypothesis Hrepository : forall v p, f (set_vcs_repository v p) = f p.
Hypothesis Hcontacts : forall v p, f (set_support_contacts v p) = f p.
Hypothesis Hbugs : forall v p, f (set_bug_tracking_url v p) = f p.
Hypothesis Hcode : forall v p, f (set_code_view_url v p) = f p.

Lemma field_mappers_keep (o : list (string * json)) :
  keeps f (for_each (field_mappers host) (call_mapper o)).
Proof.
  apply keeps_for_each_In. intros [source func] Hin.
  apply call_mapper_keeps. intros v. unfold field_mappers in Hin.
  repeat (destruct Hin as [[= <- <-] | Hin];
          [first [ apply author_mapper_keeps | apply licensing_mapper_keeps
                 | apply deps_mapper_keeps | apply repository_mapper_keeps
                 | apply support_mapper_keeps ]; assumption|]).
  destruct Hin.
Qed.

End LoopKeeps.

Lemma with_plain_fields_values (host : Host) (path : string)
    (o : list (string * json)) :
  let p := with_plain_fields host path o PHPComposerPackage in
  location p = Some (parent_directory host path)
  /\ metafile_locations p = [path]
  /\ name p = plain_value (dict_get o "name")
  /\ summary p = plain_value (dict_get o "description")
  /\ keywords p = plain_value (dict_get o "keywords")
  /\ homepage_url p = plain_value (dict_get o "homepage")
  /\ version p = version_value (dict_get o "version").
Proof.
  unfold with_plain_fields, plain_fields, plain_step, plain_value, version_value.
  cbn [fold_left]. cbv zeta.
  destruct (truthy (strip_if_basestring (dict_get o "name")));
    destruct (truthy (strip_if_basestring (dict_get o "description")));
    destruct (truthy (strip_if_basestring (dict_get o "keywords")));
    destruct (truthy (strip_if_basestring (dict_get o "version")));
    destruct (truthy (strip_if_basestring (dict_get o "homepage")));
    repeat split; reflexivity.
Qed.

(** X21: in the package [parse] returns, the location is the parent
    directory and the metafile the path; [name], [summary], [keywords] and
    [homepage_url] hold the manifest's [name], [description], [keywords]
    and [homepage], trimmed when they are texts, or nothing when that is
    false; [version] holds the manifest's [version], trimmed when it is a
    text, except that a value false once trimmed (a text of spaces, zero)
    is kept as read.  No mapper changes any of them. *)
Theorem parse_plain_attributes (host : Host) (path : string)
    (o : list (string * json)) (package : Package) :
  is_phpcomposer_json host path = true ->
  load host path = Ok (JObj o) ->
  parse host path = Ok (Some package) ->
  location package = Some (parent_directory host path)
  /\ metafile_locations package = [path]
  /\ name package = plain_value (dict_get o "name")
  /\ summary package = plain_value (dict_get o "description")
  /\ keywords package = plain_value (dict_get o "keywords")
  /\ homepage_url package = plain_value (dict_get o "homepage")
  /\ version package = version_value (dict_get o "version").
Proof.
  intros Hrec Hload Hparse.
  pose proof (parse_Some_inv _ _ _ _ Hrec Hload Hparse) as Hloop.
  pose proof (with_plain_fields_values host path o) as Hv. cbv zeta in Hv.
  set (p0 := with_plain_fields host path o PHPComposerPackage) in *.
  assert (Hk : forall {A : Type} (f : Package -> A),
            keeps f (for_each (field_mappers host) (call_mapper o)) ->
            f package = f p0).
  { intros A f Hf. specialize (Hf p0). rewrite Hloop in Hf. exact Hf. }
  destruct Hv as (H1 & H2 & H3 & H4 & H5 & H6 & H7).
  rewrite <- H1, <- H2, <- H3, <- H4, <- H5, <- H6, <- H7.
  repeat split; apply Hk; apply field_mappers_keep; reflexivity.
Qed.

Lemma parse_plain_attributes_witness :
  exists package,
    parse (sample_host (Some "") (Some (JObj sample_manifest))) "/pkg/composer.json"
      = Ok (Some package)
    /\ location package = Some "/pkg"
    /\ metafile_locations package = ["/pkg/composer.json"]
    /\ name package = JStr "acme/tools"
    /\ summary package = JStr "Tools"
    /\ keywords package = JNull
    /\ homepage_url package = JNull
    /\ version package = JStr " ".
Proof.
  eexists. split; [reflexivity|].
  apply (parse_plain_attributes
           (sample_host (Some "") (Some (JObj sample_manifest)))
           "/pkg/composer.json" sample_manifest); reflexivity.
Defined.

Lemma call_mapper_skip (o : list (string * json)) (source : string)
    (func : json -> M unit) (p : Package) :
  truthy (strip_if_basestring (dict_get o source)) = false ->
  call_mapper o (source, func) p = (Ok tt, p).
Proof.
  intros H. unfold call_mapper, mapper_argument. cbn [fst]. cbv zeta.
  rewrite H. reflexivity.
Qed.

Lemma call_mapper_call (o : list (string * json)) (source : string)
    (func : json -> M unit) (p : Package) :
  truthy (strip_if_basestring (dict_get o source)) = true ->
  call_mapper o (source, func) p
    = func (strip_if_basestring (dict_get o source)) p.
Proof.
  intros H. unfold call_mapper, mapper_argument. cbn [fst snd]. cbv zeta.
  rewrite H. reflexivity.
Qed.

(** X22: a manifest with a name and a description in which every key that
    has a mapper is absent, false, or a text of white space is always
    parsed: the package returned carries the plain fields and nothing
    else. *)
Theorem parse_plain_manifest (host : Host) (path : string)
    (o : list (string * json)) :
  is_phpcomposer_json host path = true ->
  load host path = Ok (JObj o) ->
  truthy (dict_get o "name") = true ->
  truthy (dict_get o "description") = true ->
  forallb (fun key => negb (truthy (strip_if_basestring (dict_get o key))))
    mapped_keys = true ->
  parse host path = Ok (Some (with_plain_fields host path o PHPComposerPackage)).
Proof.
  intros Hrec Hload Hn Hd Hkeys. rewrite (run_parse _ _ _ Hrec Hload), Hn, Hd.
  cbn [andb]. unfold field_mappers.
  cbn [forallb mapped_keys] in Hkeys.
  repeat (apply andb_prop in Hkeys as [Hk Hkeys];
          apply negb_true_iff in Hk;
          rewrite run_for_each_cons, (call_mapper_skip _ _ _ _ Hk); clear Hk).
  reflexivity.
Qed.

Lemma parse_plain_manifest_witness :
  parse (sample_host (Some "")
           (Some (JObj [("name", JStr "acme/tools"); ("description", JStr "Tools");
                        ("license", JStr "  "); ("authors", JList [])])))
    "/pkg/composer.json"
  = Ok (Some (with_plain_fields
                (sample_host (Some "")
                   (Some (JObj [("name", JStr "acme/tools"); ("description", JStr "Tools");
                                ("license", JStr "  "); ("authors", JList [])])))
                "/pkg/composer.json"
                [("name", JStr "acme/tools"); ("description", JStr "Tools");
                 ("license", JStr "  "); ("authors", JList [])]
                PHPComposerPackage)).
Proof. apply parse_plain_manifest; reflexivity. Defined.

(** X23: a manifest with a name and a description whose [authors] is a
    true value other than a list (a text that is not blank, a mapping, a
    number) makes [parse] raise [KeyError('person')]. *)
Theorem parse_authors_not_a_list (host : Host) (path : string)
    (o : list (string * json)) :
  is_phpcomposer_json host path = true ->
  load host path = Ok (JObj o) ->
  truthy (dict_get o "name") = true ->
  truthy (dict_get o "description") = true ->
  truthy (strip_if_basestring (dict_get o "authors")) = true ->
  is_list (dict_get o "authors") = false ->
  parse host path = Raise (KeyError "person").
Proof.
  intros Hrec Hload Hn Hd Ha Hl. rewrite (run_parse _ _ _ Hrec Hload), Hn, Hd.
  cbn [andb]. unfold field_mappers.
  rewrite run_for_each_cons, (call_mapper_call _ _ _ _ Ha).
  destruct (dict_get o "authors"); try discriminate Hl; reflexivity.
Qed.

Lemma parse_authors_not_a_list_witness :
  parse (sample_host (Some "")
           (Some (JObj [("name", JStr "acme/tools"); ("description", JStr "Tools");
                        ("authors", JStr "Jane Doe")])))
    "/pkg/composer.json"
  = Raise (KeyError "person").
Proof.
  apply (parse_authors_not_a_list _ _
           [("name", JStr "acme/tools"); ("description", JStr "Tools");
            ("authors", JStr "Jane Doe")]); reflexivity.
Defined.

(** X24: in the package [parse] returns, the license assertions are those
    of the manifest's [license], trimmed when it is a text: none when it
    is absent, false or blank, and otherwise the assertions the license
    mapper makes for it. *)
Theorem parse_asserted_licenses (host : Host) (path : string)
    (o : list (string * json)) (package : Package) :
  is_phpcomposer_json host path = true ->
  load host path = Ok (JObj o) ->
  parse host path = Ok (Some package) ->
  asserted_licenses package
    = map mkAssertedLicense
        (match mapper_argument (dict_get o "license") with
         | Some licenses => license_texts host licenses
         | None => []
         end).
Proof.
  intros Hrec Hload Hparse.
  pose proof (parse_Some_inv _ _ _ _ Hrec Hload Hparse) as Hloop.
  change (field_mappers host)
    with ([("authors", author_mapper host)]
          ++ ("license", licensing_mapper host)
             :: [ ("require", dependencies_mapper);
                  ("require-dev", dev_dependencies_mapper);
                  ("repositories", repository_mapper);
                  ("support", support_mapper) ])%list in Hloop.
  apply for_each_Ok_inv in Hloop as (p1 & p2 & Hbefore & Hlicense & Hafter).
  assert (H1 : asserted_licenses p1 = []).
  { assert (K : keeps asserted_licenses
                  (for_each [("authors", author_mapper host)] (call_mapper o))).
    { apply keeps_for_each_In. intros [source func] [[= <- <-] | []].
      apply call_mapper_keeps. intros v.
      apply author_mapper_keeps. reflexivity. }
    specialize (K (with_plain_fields host path o PHPComposerPackage)).
    rewrite Hbefore in K. cbn [snd] in K. rewrite K.
    apply (with_plain_fields_keeps asserted_licenses); reflexivity. }
  assert (H2 : asserted_licenses package = asserted_licenses p2).
  { assert (K : keeps asserted_licenses
                  (for_each [ ("require", dependencies_mapper);
                              ("require-dev", dev_dependencies_mapper);
                              ("repositories", repository_mapper);
                              ("support", support_mapper) ] (call_mapper o))).
    { apply keeps_for_each_In. intros [source func] Hin.
      apply call_mapper_keeps. intros v.
      repeat (destruct Hin as [[= <- <-] | Hin];
              [first [ apply deps_mapper_keeps | apply repository_mapper_keeps
                     | apply support_mapper_keeps ]; reflexivity|]).
      destruct Hin. }
    specialize (K p2). rewrite Hafter in K. exact K. }
  rewrite H2. revert Hlicense. unfold call_mapper, mapper_argument.
  cbn [fst snd]. cbv zeta.
  destruct (truthy (strip_if_basestring (dict_get o "license"))) eqn:T.
  - rewrite run_licensing_mapper. unfold appended_texts. rewrite T.
    intros [= <-]. unfold with_licenses.
    rewrite asserted_licenses_set, H1. reflexivity.
  - intros [= <-]. exact H1.
Qed.

Lemma parse_asserted_licenses_witness :
  exists package,
    parse (sample_host (Some "") (Some (JObj sample_manifest))) "/pkg/composer.json"
      = Ok (Some package)
    /\ asserted_licenses package = [mkAssertedLicense "MIT"].
Proof.
  eexists. split; [reflexivity|].
  apply (parse_asserted_licenses
           (sample_host (Some "") (Some (JObj sample_manifest)))
           "/pkg/composer.json" sample_manifest); reflexivity.
Defined.

(** One round of the loop of [parse] for a key mapped by [deps_mapper]. *)
Lemma deps_round (o : list (string * json)) (source field_name kind : string)
    (p p' : Package) :
  subscript dep_types field_name = Ok kind ->
  call_mapper o (source, fun deps => deps_mapper deps field_name) p = (Ok tt, p') ->
  dependencies p !! kind = None ->
  dependencies p' !! kind = parsed_dependencies (dict_get o source)
  /\ forall other, other <> kind ->
       dependencies p' !! other = dependencies p !! other.
Proof.
  intros Hk Hrun Hnone. revert Hrun. unfold call_mapper, mapper_argument.
  cbn [fst snd]. cbv zeta.
  destruct (truthy (strip_if_basestring (dict_get o source))) eqn:T.
  - destruct (dict_get o source) as [| | | | | |d];
      try (unfold deps_mapper; rewrite Hk; discriminate).
    cbn [strip_if_basestring] in *. rewrite (run_deps_mapper _ _ _ _ Hk).
    intros [= <-]. cbn [dependencies set_dependencies]. split.
    + rewrite lookup_insert_eq. unfold existing. rewrite Hnone.
      destruct d; [discriminate T | reflexivity].
    + intros other Hne. apply lookup_insert_ne. congruence.
  - intros [= <-]. split; [|reflexivity]. rewrite Hnone.
    destruct (dict_get o source) as [| | | | | |[|item d]];
      try reflexivity; discriminate T.
Qed.

(** X25: in the package [parse] returns, the runtime dependencies are the
    items of the manifest's [require] and the dev dependencies those of
    its [require-dev], in order; a key that is absent or empty leaves no
    entry for its kind, and there is no entry of any other kind. *)
Theorem parse_dependencies (host : Host) (path : string)
    (o : list (string * json)) (package : Package) :
  is_phpcomposer_json host path = true ->
  load host path = Ok (JObj o) ->
  parse host path = Ok (Some package) ->
  dependencies package !! dep_runtime = parsed_dependencies (dict_get o "require")
  /\ dependencies package !! dep_dev
       = parsed_dependencies (dict_get o "require-dev")
  /\ forall kind, kind <> dep_runtime -> kind <> dep_dev ->
       dependencies package !! kind = None.
Proof.
  intros Hrec Hload Hparse.
  pose proof (parse_Some_inv _ _ _ _ Hrec Hload Hparse) as Hloop.
  change (field_mappers host)
    with ([("authors", author_mapper host); ("license", licensing_mapper host)]
          ++ ("require", dependencies_mapper)
             :: ([] ++ ("require-dev", dev_dependencies_mapper)
                       :: [ ("repositories", repository_mapper);
                            ("support", support_mapper) ]))%list in Hloop.
  apply for_each_Ok_inv in Hloop as (p1 & p2 & Hbefore & Hrequire & Hloop).
  apply for_each_Ok_inv in Hloop as (p2' & p3 & [= <-] & Hdev & Hafter).
  assert (H1 : dependencies p1 = ∅).
  { assert (K : keeps dependencies
                  (for_each [ ("authors", author_mapper host);
                              ("license", licensing_mapper host) ] (call_mapper o))).
    { apply keeps_for_each_In. intros [source func] Hin.
      apply call_mapper_keeps. intros v.
      repeat (destruct Hin as [[= <- <-] | Hin];
              [first [ apply author_mapper_keeps | apply licensing_mapper_keeps ];
               reflexivity|]).
      destruct Hin. }
    specialize (K (with_plain_fields host path o PHPComposerPackage)).
    rewrite Hbefore in K. cbn [snd] in K. rewrite K.
    apply (with_plain_fields_keeps dependencies); reflexivity. }
  assert (H3 : dependencies package = dependencies p3).
  { assert (K : keeps dependencies
                  (for_each [ ("repositories", repository_mapper);
                              ("support", support_mapper) ] (call_mapper o))).
    { apply keeps_for_each_In. intros [source func] Hin.
      apply call_mapper_keeps. intros v.
      repeat (destruct Hin as [[= <- <-] | Hin];
              [first [ apply repository_mapper_keeps | apply support_mapper_keeps ];
               reflexivity|]).
      destruct Hin. }
    specialize (K p3). rewrite Hafter in K. exact K. }
  destruct (deps_round o "require" "dependencies" dep_runtime p1 p2 eq_refl Hrequire)
    as [R2 O2]; [rewrite H1; apply lookup_empty|].
  destruct (deps_round o "require-dev" "devDependencies" dep_dev p2 p3 eq_refl Hdev)
    as [R3 O3]; [rewrite O2 by discriminate; rewrite H1; apply lookup_empty|].
  rewrite H3. split; [|split].
  - rewrite O3 by discriminate. exact R2.
  - exact R3.
  - intros kind Hr Hd. rewrite (O3 _ Hd), (O2 _ Hr), H1. apply lookup_empty.
Qed.

Lemma parse_dependencies_witness :
  exists package,
    parse (sample_host (Some "") (Some (JObj sample_manifest))) "/pkg/composer.json"
      = Ok (Some package)
    /\ dependencies package !! dep_runtime
         = Some [mkDependency "php" (JStr ">=5.3")]
    /\ dependencies package !! dep_dev
         = Some [mkDependency "phpunit/phpunit" (JStr "^4.0")]
    /\ forall kind, kind <> dep_runtime -> kind <> dep_dev ->
         dependencies package !! kind = None.
Proof.
  eexists. split; [reflexivity|].
  apply (parse_dependencies
           (sample_host (Some "") (Some (JObj sample_manifest)))
           "/pkg/composer.json" sample_manifest); reflexivity.
Defined.
